(** * eval.py: the evaluation driver of the randomly wired network

    A shallow embedding of [scripts/eval.py]: the argument parser, [main]
    and [infer].  The script is glue around an external tensor framework,
    so the embedding threads an explicit world (clock, gradient mode, trace
    of calls into the collaborators) through a small state-and-exception
    monad, and keeps the collaborators themselves abstract in a class.

    Numbers: Python [int] is [Z].  The floats that come back from the
    framework (loss, accuracies, readings of [time.time()]) are exact
    rationals [Q]; rounding is outside this development, except for the
    division of line 112, which is also given in binary64 to settle what
    the quotient multiplies back to.  The one float
    the user types, [--report_freq], keeps its infinities and its NaN,
    because the comparison on line 119 depends on them.

    Of the module level only the parser and the renaming of [args.save]
    (lines 19-34) are embedded; the experiment directory and the logging
    handlers (lines 35-41) play no part in what is proved. *)

From Stdlib Require Import List ZArith QArith Qround String Bool Lia Arith.
From Stdlib Require Floats.
Import ListNotations.

Set Implicit Arguments.

(** ** Python values used by the script *)

Inductive pyfloat : Type :=
| PyFinite (q : Q)
| PyInf (negative : bool)
| PyNaN.

(** [bool(s)] on a string: only the empty string is falsy. *)
Definition py_bool_of_str (s : string) : bool :=
  negb (String.eqb s EmptyString).

(** [x == 0] on a float: true on both zeros, false on NaN. *)
Definition py_eq_zero (x : pyfloat) : bool :=
  match x with
  | PyFinite q => Qeq_bool q 0
  | PyInf _ => false
  | PyNaN => false
  end.

(** [step % d] for an integer [step] and a float [d], as CPython's
    [float_rem] computes it: [None] is the [ZeroDivisionError]; a finite
    divisor gives the remainder with the sign of the divisor; an infinite
    divisor leaves a [step] of the same sign (or zero) unchanged and
    otherwise gives the divisor; NaN gives NaN. *)
Definition py_mod (step : Z) (d : pyfloat) : option pyfloat :=
  match d with
  | PyFinite q =>
      if Qeq_bool q 0 then None
      else Some (PyFinite (inject_Z step - q * inject_Z (Qfloor (inject_Z step / q))))
  | PyInf negative =>
      if (step =? 0)%Z then Some (PyFinite 0)
      else if Bool.eqb negative (step <? 0)%Z then Some (PyFinite (inject_Z step))
      else Some (PyInf negative)
  | PyNaN => Some PyNaN
  end.

(** ** Command line (lines 19-34) *)

Record Args : Type := mkArgs {
  data : string;
  regime : bool;
  batch_size : Z;
  base_channels : Z;
  output_channels : Z;
  train_flag : bool;
  gpu : Z;
  seed : Z;
  graph_txt : string;
  save : string;
  epochs : Z;
  report_freq : pyfloat
}.

(** What the user typed after each flag, [None] when the flag is absent.
    The [str] and [bool] flags hold the raw string, since their converters
    are modelled here; [int(...)] and [float(...)] are Python's own and the
    [int] and [float] flags hold the converted number. *)
Record CommandLine : Type := mkCommandLine {
  cl_data : option string;
  cl_regime : option string;
  cl_batch_size : option Z;
  cl_base_channels : option Z;
  cl_output_channels : option Z;
  cl_train_flag : option string;
  cl_gpu : option Z;
  cl_seed : option Z;
  cl_graph_txt : option string;
  cl_save : option string;
  cl_epochs : option Z;
  cl_report_freq : option pyfloat
}.

(** [add_argument(..., type=t, default=d)]: the converter runs on a
    supplied string only; a default that is not a string is used as is. *)
Definition add_argument {S A : Type} (type : S -> A) (default : A)
    (supplied : option S) : A :=
  match supplied with
  | Some s => type s
  | None => default
  end.

Definition py_str (s : string) : string := s.
Definition py_int (z : Z) : Z := z.
Definition py_float (x : pyfloat) : pyfloat := x.

Definition no_flags : CommandLine :=
  mkCommandLine None None None None None None None None None None None None.

(** Line 32. *)
Definition parse_args (cl : CommandLine) : Args :=
  {| data := add_argument py_str "/dataset/extract_ILSVRC2012"%string (cl_data cl);
     regime := add_argument py_bool_of_str true (cl_regime cl);
     batch_size := add_argument py_int 256%Z (cl_batch_size cl);
     base_channels := add_argument py_int 78%Z (cl_base_channels cl);
     output_channels := add_argument py_int 1280%Z (cl_output_channels cl);
     train_flag := add_argument py_bool_of_str false (cl_train_flag cl);
     gpu := add_argument py_int 0%Z (cl_gpu cl);
     seed := add_argument py_int 5%Z (cl_seed cl);
     graph_txt := add_argument py_str "ws_4_075_conv"%string (cl_graph_txt cl);
     save := add_argument py_str "EXP"%string (cl_save cl);
     epochs := add_argument py_int 250%Z (cl_epochs cl);
     report_freq := add_argument py_float (PyFinite 100) (cl_report_freq cl) |}.

(** Line 34: the experiment directory gets a prefix and a time stamp. *)
Definition stamp_save (a : Args) (strftime : string) : Args :=
  {| data := data a; regime := regime a; batch_size := batch_size a;
     base_channels := base_channels a; output_channels := output_channels a;
     train_flag := train_flag a; gpu := gpu a; seed := seed a;
     graph_txt := graph_txt a;
     save := ("search-" ++ save a ++ "-" ++ strftime)%string;
     epochs := epochs a; report_freq := report_freq a |}.

Definition NUM_CLASSES : Z := 1000.

(** ** The world outside the script *)

Inductive Val : Type :=
| VInt (z : Z)
| VFloat (q : Q)
| VBool (b : bool)
| VStr (s : string)
| VArgs (a : Args).

Inductive TensorOp : Type :=
| OpCuda        (* tensor.cuda() *)
| OpForward     (* model(inputs) *)
| OpLoss        (* criterion(logits, targets) *)
| OpAccuracy.   (* utils.accuracy(logits, targets, topk=(1, 5)) *)

(** One entry per call that leaves the script.  A tensor operation records
    the gradient mode it ran under and the leading dimension of its first
    operand. *)
Inductive Event : Type :=
| EvLog (fmt : string) (args : list Val)          (* logging.info *)
| EvCall (fn : string) (args : list Val)          (* set-up calls *)
| EvReadGraph (file : string)                     (* read_graph_info *)
| EvTime (t : Q)                                  (* time.time() *)
| EvTensor (op : TensorOp) (grad : bool) (n : Z)
| EvAddScalar (tag : string) (v : Q) (step : Z).  (* writer.add_scalar *)

Record World : Type := mkWorld {
  cuda_available : bool;   (* torch.cuda.is_available() *)
  clock : nat -> Q;        (* the successive readings of time.time() *)
  reads : nat;             (* how many readings were taken *)
  grad_enabled : bool;     (* torch.is_grad_enabled() *)
  trace : list Event
}.

Inductive DivSite : Type :=
| DivPerImageSpeed   (* line 112, (toc - tic) / n *)
| DivMeterAvg        (* AvgrageMeter.update, sum / cnt *)
| DivReportFreq.     (* line 119, step % args.report_freq *)

Inductive Exn : Type :=
| SystemExit (code : Z)
| ZeroDivisionError (site : DivSite).

Inductive Outcome (A : Type) : Type :=
| Ret (a : A)
| Raise (e : Exn).
Arguments Raise {A} e.

(** ** State and exception monad *)

Definition M (A : Type) : Type := World -> Outcome A * World.

Definition ret {A : Type} (a : A) : M A := fun w => (Ret a, w).

Definition raise {A : Type} (e : Exn) : M A := fun w => (Raise e, w).

Definition bind {A B : Type} (m : M A) (k : A -> M B) : M B :=
  fun w =>
    match m w with
    | (Ret a, w') => k a w'
    | (Raise e, w') => (Raise e, w')
    end.

Declare Scope py_scope.
Delimit Scope py_scope with py.
Notation "x <- m ;; k" := (bind m (fun x => k))
  (at level 61, m at next level, right associativity) : py_scope.
Notation "' p <- m ;; k" := (bind m (fun x => match x with p => k end))
  (at level 61, p pattern, m at next level, right associativity) : py_scope.
Notation "m ;; k" := (bind m (fun _ => k))
  (at level 61, right associativity) : py_scope.
Open Scope py_scope.

Definition emit (e : Event) : M unit :=
  fun w => (Ret tt,
            mkWorld (cuda_available w) (clock w) (reads w) (grad_enabled w)
                    (trace w ++ [e])).

Definition set_grad_enabled (b : bool) (w : World) : World :=
  mkWorld (cuda_available w) (clock w) (reads w) b (trace w).

Definition logging_info (fmt : string) (args : list Val) : M unit :=
  emit (EvLog fmt args).

Definition call (fn : string) (args : list Val) : M unit :=
  emit (EvCall fn args).

Definition torch_cuda_is_available : M bool :=
  fun w => (Ret (cuda_available w), w).

Definition sys_exit {A : Type} (code : Z) : M A := raise (SystemExit code).

(** [time.time()]: the next reading of the clock. *)
Definition time_time : M Q :=
  fun w =>
    let t := clock w (reads w) in
    (Ret t,
     mkWorld (cuda_available w) (clock w) (S (reads w)) (grad_enabled w)
             (trace w ++ [EvTime t])).

(** [with torch.no_grad(): body]: the mode is switched off on entry and
    the previous mode is put back on exit, also when [body] raises. *)
Definition no_grad {A : Type} (body : M A) : M A :=
  fun w =>
    let prev := grad_enabled w in
    let (r, w') := body (set_grad_enabled false w) in
    (r, set_grad_enabled prev w').

(** A tensor operation runs under the gradient mode of the moment. *)
Definition tensor_op (op : TensorOp) (n : Z) : M unit :=
  fun w => emit (EvTensor op (grad_enabled w) n) w.

(** True division by an [int].  The quotient is exact here; Python rounds
    it to a double. *)
Definition py_div (site : DivSite) (x : Q) (n : Z) : M Q :=
  if (n =? 0)%Z then raise (ZeroDivisionError site)
  else ret (x / inject_Z n).

(** ** utils.AvgrageMeter *)

(** Modelled from the spec: [utils.AvgrageMeter] lives in [utils.py], which
    is not among the sources.  The spec describes it as accumulating a
    running mean given a value and a sample count, the averages being
    weighted by batch size: the meter keeps the weighted sum and the
    count, and [update(val, n)] refreshes the average as their quotient. *)
Record AvgrageMeter : Type := mkMeter {
  avg : Q;
  sum : Q;
  cnt : Z
}.

(** Modelled from the spec: a fresh meter has seen nothing. *)
Definition new_meter : AvgrageMeter := mkMeter 0 0 0.

(** Modelled from the spec: [AvgrageMeter.update(val, n)] of [utils.py]. *)
Definition update (m : AvgrageMeter) (val : Q) (n : Z) : M AvgrageMeter :=
  let sum' := sum m + val * inject_Z n in
  let cnt' := (cnt m + n)%Z in
  a <- py_div DivMeterAvg sum' cnt' ;;
  ret (mkMeter a sum' cnt').

(** The four meters of [infer] (lines 95-98). *)
Record Meters : Type := mkMeters {
  objs : AvgrageMeter;
  top1 : AvgrageMeter;
  top5 : AvgrageMeter;
  speed : AvgrageMeter
}.

Definition new_meters : Meters :=
  mkMeters new_meter new_meter new_meter new_meter.

(** ** The collaborators *)

(** The tensor framework, the model module, the graph reader and the
    dataset pipeline.  They are taken to return; their own failures are
    not part of this development. *)
Class Framework : Type := {
  Tensor : Type;
  GraphInfo : Type;
  Model : Type;
  size0 : Tensor -> Z;                                   (* t.size(0) *)
  read_graph_info : string -> GraphInfo;
  RandomlyWiredNN : Z -> Z -> Z -> bool -> list GraphInfo -> Model;
  forward : Model -> Tensor -> Tensor;                   (* model(inputs) *)
  CrossEntropyLoss : Tensor -> Tensor -> Q;              (* .item() of the loss *)
  accuracy : Tensor -> Tensor -> Q * Q;                  (* .item() of prec1, prec5 *)
  count_parameters_in_MB : Model -> Q;
  model_param_flops_in_GB : Model -> Q;
  preprocess_imagenet : Args -> list (Tensor * Tensor)   (* the test queue *)
}.

Section Script.

Context {F : Framework}.
Variable args : Args.

Definition Batch : Type := (Tensor * Tensor)%type.

(** ** infer (lines 94-122) *)

(** What one batch contributes to the meters. *)
Record BatchStats : Type := mkStats {
  st_loss : Q;
  st_prec1 : Q;
  st_prec5 : Q;
  st_speed : Q;
  st_n : Z
}.

(** Lines 102-113. *)
Definition measure_batch (model : Model) (batch : Batch) : M BatchStats :=
  let (inputs, targets) := batch in
  let n := size0 inputs in
  tensor_op OpCuda (size0 inputs) ;;
  tensor_op OpCuda (size0 targets) ;;
  '(tic, logits, toc) <-
     no_grad (tic <- time_time ;;
              tensor_op OpForward (size0 inputs) ;;
              toc <- time_time ;;
              ret (tic, forward model inputs, toc)) ;;
  tensor_op OpLoss (size0 logits) ;;
  let val_loss := CrossEntropyLoss logits targets in
  per_image_speed <- py_div DivPerImageSpeed (1 * (toc - tic)) n ;;
  tensor_op OpAccuracy (size0 logits) ;;
  let (prec1, prec5) := accuracy logits targets in
  ret (mkStats val_loss prec1 prec5 per_image_speed n).

(** Lines 114-117. *)
Definition update_meters (ms : Meters) (s : BatchStats) : M Meters :=
  o <- update (objs ms) (st_loss s) (st_n s) ;;
  t1 <- update (top1 ms) (st_prec1 s) (st_n s) ;;
  t5 <- update (top5 ms) (st_prec5 s) (st_n s) ;;
  sp <- update (speed ms) (st_speed s) (st_n s) ;;
  ret (mkMeters o t1 t5 sp).

Definition progress_fmt : string := "valid %03d %e %f %f %f".

Definition progress_args (step : Z) (ms : Meters) : list Val :=
  [VInt step; VFloat (avg (objs ms)); VFloat (avg (top1 ms));
   VFloat (avg (top5 ms)); VFloat (avg (speed ms))].

Definition progress_line (step : Z) (ms : Meters) : Event :=
  EvLog progress_fmt (progress_args step ms).

(** Lines 119-120. *)
Definition report_progress (step : Z) (ms : Meters) : M unit :=
  match py_mod step (report_freq args) with
  | None => raise (ZeroDivisionError DivReportFreq)
  | Some r => if py_eq_zero r then emit (progress_line step ms) else ret tt
  end.

(** The body of the loop of line 101. *)
Definition infer_body (model : Model) (ms : Meters) (step : Z) (batch : Batch)
    : M Meters :=
  s <- measure_batch model batch ;;
  ms' <- update_meters ms s ;;
  report_progress step ms' ;;
  ret ms'.

(** [for step, (inputs, targets) in enumerate(valid_queue)]. *)
Fixpoint infer_loop (model : Model) (step : Z) (valid_queue : list Batch)
    (ms : Meters) : M Meters :=
  match valid_queue with
  | [] => ret ms
  | batch :: rest =>
      ms' <- infer_body model ms step batch ;;
      infer_loop model (step + 1) rest ms'
  end.

(** [infer] up to its [return]: the meters as the loop leaves them. *)
Definition infer_meters (valid_queue : list Batch) (model : Model) : M Meters :=
  call "model.eval" [] ;;
  infer_loop model 0 valid_queue new_meters.

Definition infer (valid_queue : list Batch) (model : Model) : M (Q * Q * Q) :=
  ms <- infer_meters valid_queue model ;;
  ret (avg (top1 ms), avg (objs ms), avg (speed ms)).

(** ** main (lines 46-91) *)

(** [read_graph_info(args.graph_txt + suffix)]. *)
Definition load_graph (suffix : string) : M GraphInfo :=
  let file := (graph_txt args ++ suffix)%string in
  emit (EvReadGraph file) ;;
  ret (read_graph_info file).

(** Lines 62-72. *)
Definition read_graphs : M (list GraphInfo) :=
  if regime args then
    graph_info_dict3 <- load_graph "3.txt" ;;
    graph_info_dict4 <- load_graph "4.txt" ;;
    graph_info_dict5 <- load_graph "5.txt" ;;
    ret [graph_info_dict3; graph_info_dict4; graph_info_dict5]
  else
    graph_info_dict2 <- load_graph "2.txt" ;;
    graph_info_dict3 <- load_graph "3.txt" ;;
    graph_info_dict4 <- load_graph "4.txt" ;;
    graph_info_dict5 <- load_graph "5.txt" ;;
    ret [graph_info_dict2; graph_info_dict3; graph_info_dict4; graph_info_dict5].

(** Lines 47-49. *)
Definition require_gpu : M unit :=
  available <- torch_cuda_is_available ;;
  if negb available then
    logging_info "no gpu device available" [] ;;
    sys_exit 1
  else ret tt.

(** Lines 51-59. *)
Definition seed_and_announce : M unit :=
  call "np.random.seed" [VInt (seed args)] ;;
  call "torch.cuda.set_device" [VInt (gpu args)] ;;
  call "cudnn.benchmark" [VBool true] ;;
  call "torch.manual_seed" [VInt (seed args)] ;;
  call "cudnn.enabled" [VBool true] ;;
  call "torch.cuda.manual_seed" [VInt (seed args)] ;;
  logging_info "gpu device = %d" [VInt (gpu args)] ;;
  logging_info "small regime or regular regime = %s" [VBool (regime args)] ;;
  logging_info "args = %s" [VArgs args].

(** Lines 74-84; the model that was built is returned with the queue. *)
Definition build (graph_info_dicts : list GraphInfo) : M (Model * list Batch) :=
  call "SummaryWriter" [VStr (save args)] ;;
  call "nn.CrossEntropyLoss" [] ;;
  call "criterion.cuda" [] ;;
  let model := RandomlyWiredNN (base_channels args) NUM_CLASSES
                               (output_channels args) (regime args)
                               graph_info_dicts in
  call "RandomlyWiredNN" [VInt (base_channels args); VInt NUM_CLASSES;
                           VInt (output_channels args); VBool (regime args)] ;;
  call "model.cuda" [] ;;
  logging_info "param size = %fMB" [VFloat (count_parameters_in_MB model)] ;;
  logging_info "FLOPs = %fGB" [VFloat (model_param_flops_in_GB model)] ;;
  call "preprocess_imagenet" [VArgs args] ;;
  ret (model, preprocess_imagenet args).

(** Lines 87-90, the body of the epoch loop. *)
Definition epoch_body (test_queue : list Batch) (model : Model) (epoch : Z)
    : M unit :=
  '(valid_acc, valid_obj, valid_speed) <- infer test_queue model ;;
  logging_info "valid_acc %f" [VFloat valid_acc] ;;
  logging_info "valid_speed_per_image %f" [VFloat valid_speed] ;;
  emit (EvAddScalar "val_loss" valid_obj epoch).

(** [for i in range(...)]: [count] iterations from [i] on. *)
Fixpoint for_range (count : nat) (i : Z) (body : Z -> M unit) : M unit :=
  match count with
  | O => ret tt
  | S count' => body i ;; for_range count' (i + 1) body
  end.

(** Lines 86-91. *)
Definition evaluate (test_queue : list Batch) (model : Model) : M unit :=
  for_range (Z.to_nat (epochs args)) 0 (epoch_body test_queue model) ;;
  call "writer.close" [].

(** Lines 46-91, with the model that was built as the value, so that
    what the constructor received can be stated. *)
Definition main_model : M Model :=
  require_gpu ;;
  seed_and_announce ;;
  graph_info_dicts <- read_graphs ;;
  '(model, test_queue) <- build graph_info_dicts ;;
  evaluate test_queue model ;;
  ret model.

(** [main()] itself returns nothing. *)
Definition main : M unit :=
  main_model ;;
  ret tt.

End Script.

Unset Implicit Arguments.

(** ** Runs, described without the monad *)

(** [k] more readings of the clock and the events [d]; everything else as
    in [w]. *)
Definition advance (w : World) (k : nat) (d : list Event) : World :=
  mkWorld (cuda_available w) (clock w) (k + reads w) (grad_enabled w)
          (trace w ++ d).

(** The events a computation adds to the trace of [w]. *)
Definition emitted {A : Type} (m : M A) (w : World) : list Event :=
  skipn (List.length (trace w)) (trace (snd (m w))).

(** The interpreter as [main] finds it: no reading taken, nothing traced,
    and the gradient mode that torch starts with, which nothing at module
    level changes. *)
Definition start (cuda : bool) (clk : nat -> Q) : World :=
  mkWorld cuda clk 0 true [].

(** The value [update(val, n)] leaves in a meter when it does not raise. *)
Definition feed (m : AvgrageMeter) (val : Q) (n : Z) : AvgrageMeter :=
  mkMeter ((sum m + val * inject_Z n) / inject_Z (cnt m + n))
          (sum m + val * inject_Z n) (cnt m + n).

Definition feed_pair (m : AvgrageMeter) (p : Q * Z) : AvgrageMeter :=
  feed m (fst p) (snd p).

(** Weighted mean of [(value, count)] pairs. *)
Definition weighted_sum (l : list (Q * Z)) : Q :=
  fold_right (fun p acc => fst p * inject_Z (snd p) + acc) 0 l.

Definition total_count (l : list (Q * Z)) : Z :=
  fold_right (fun p acc => (snd p + acc)%Z) 0%Z l.

Definition weighted_mean (l : list (Q * Z)) : Q :=
  weighted_sum l / inject_Z (total_count l).

(** *** Reading a trace *)

Definition collect {X : Type} (f : Event -> option X) (d : list Event) : list X :=
  flat_map (fun e => match f e with Some x => [x] | None => [] end) d.

Definition log_args (fmt : string) (e : Event) : option (list Val) :=
  match e with
  | EvLog f a => if String.eqb f fmt then Some a else None
  | _ => None
  end.

Definition call_args (fn : string) (e : Event) : option (list Val) :=
  match e with
  | EvCall f a => if String.eqb f fn then Some a else None
  | _ => None
  end.

Definition graph_read (e : Event) : option string :=
  match e with
  | EvReadGraph file => Some file
  | _ => None
  end.

Definition forward_size (e : Event) : option Z :=
  match e with
  | EvTensor OpForward _ n => Some n
  | _ => None
  end.

Definition add_scalar (e : Event) : option (string * Q * Z) :=
  match e with
  | EvAddScalar tag v step => Some (tag, v, step)
  | _ => None
  end.

(** The argument lists of the log lines with format [fmt]. *)
Definition logs (fmt : string) : list Event -> list (list Val) :=
  collect (log_args fmt).

(** The argument lists of the calls of [fn]. *)
Definition calls (fn : string) : list Event -> list (list Val) :=
  collect (call_args fn).

(** The graph files read, in order. *)
Definition graph_reads : list Event -> list string := collect graph_read.

(** The leading dimensions of the batches that went through the model. *)
Definition forward_sizes : list Event -> list Z := collect forward_size.

(** The scalars written, in order. *)
Definition scalars : list Event -> list (string * Q * Z) := collect add_scalar.

(** The float arguments of all the log lines. *)
Definition logged_floats (d : list Event) : list Q :=
  flat_map (fun e => match e with
                     | EvLog _ a =>
                         flat_map (fun v => match v with
                                            | VFloat q => [q]
                                            | _ => []
                                            end) a
                     | _ => []
                     end) d.

(** Some log line carries the number [x]. *)
Definition reported (d : list Event) (x : Q) : bool :=
  existsb (Qeq_bool x) (logged_floats d).

(** Forward pass and loss all ran with the gradient mode off. *)
Definition grad_free (d : list Event) : bool :=
  forallb (fun e => match e with
                    | EvTensor OpForward g _ => negb g
                    | EvTensor OpLoss g _ => negb g
                    | _ => true
                    end) d.

(** The forward pass ran with the gradient mode off, and every other
    tensor operation with the mode [g]. *)
Definition grad_as_scoped (g : bool) (e : Event) : Prop :=
  match e with
  | EvTensor OpForward grad _ => grad = false
  | EvTensor _ grad _ => grad = g
  | _ => True
  end.

(** The steps of the progress lines, in order. *)
Definition logged_steps (d : list Event) : list Z :=
  flat_map (fun a => match a with
                     | VInt step :: _ => [step]
                     | _ => []
                     end) (logs progress_fmt d).

(** The trace without the progress lines. *)
Definition without_progress (d : list Event) : list Event :=
  filter (fun e => match log_args progress_fmt e with
                   | Some _ => false
                   | None => true
                   end) d.

(** The events of the epoch loop: tensor operations, clock readings, the
    call of [model.eval] and the progress lines of [infer], and the two
    lines and the scalar that close an epoch. *)
Definition loop_event (e : Event) : Prop :=
  match e with
  | EvTensor _ _ _ => True
  | EvTime _ => True
  | EvAddScalar _ _ _ => True
  | EvLog fmt _ =>
      fmt = progress_fmt \/ fmt = "valid_acc %f"%string
      \/ fmt = "valid_speed_per_image %f"%string
  | EvCall fn _ => fn = "model.eval"%string
  | EvReadGraph _ => False
  end.

(** [m] only adds loop events to the trace, and reads the clock twice for
    each batch it sends through the model. *)
Definition paced {A : Type} (m : M A) : Prop :=
  forall w : World,
    exists d : list Event,
      snd (m w) = advance w (2 * List.length (forward_sizes d)) d
      /\ Forall loop_event d.

(** Whether a computation returned. *)
Definition returned {A : Type} (r : Outcome A) : bool :=
  match r with
  | Ret _ => true
  | Raise _ => false
  end.

(** What follows the epoch loop in the trace: the writer is closed when
    the loop returned, and not at all when it raised. *)
Definition closing (loop_returned : bool) : list Event :=
  if loop_returned then [EvCall "writer.close" []] else [].

(** *** Line 112 in binary64 *)






(** Command lines that differ from [cl] in one flag. *)
Definition supply_regime (cl : CommandLine) (s : string) : CommandLine :=
  mkCommandLine (cl_data cl) (Some s) (cl_batch_size cl) (cl_base_channels cl)
                (cl_output_channels cl) (cl_train_flag cl) (cl_gpu cl)
                (cl_seed cl) (cl_graph_txt cl) (cl_save cl) (cl_epochs cl)
                (cl_report_freq cl).

Definition supply_train_flag (cl : CommandLine) (s : string) : CommandLine :=
  mkCommandLine (cl_data cl) (cl_regime cl) (cl_batch_size cl)
                (cl_base_channels cl) (cl_output_channels cl) (Some s)
                (cl_gpu cl) (cl_seed cl) (cl_graph_txt cl) (cl_save cl)
                (cl_epochs cl) (cl_report_freq cl).

(** ** A small framework to run the script on *)

Module Stub.

(** Tensors are lists of integers.  The model is the identity, the loss is
    a tenth of the first logit, and the two accuracies are read off the
    first two targets. *)
Definition framework : Framework :=
  {| Tensor := list Z;
     GraphInfo := string;
     Model := list string;
     size0 := fun t => Z.of_nat (List.length t);
     read_graph_info := fun file => file;
     RandomlyWiredNN := fun _ _ _ _ graphs => graphs;
     forward := fun _ x => x;
     CrossEntropyLoss := fun logits _ => inject_Z (nth 0 logits 0%Z) / 10;
     accuracy := fun _ targets =>
       (inject_Z (nth 0 targets 0%Z), inject_Z (nth 1 targets 0%Z));
     count_parameters_in_MB := fun _ => 5;
     model_param_flops_in_GB := fun _ => 1;
     preprocess_imagenet := fun _ =>
       [([1; 2], [50; 80]); ([3; 4; 5], [60; 90])]%Z |}.

(** Two batches, of two and of three images. *)
Definition queue : list (list Z * list Z) :=
  [([1; 2], [50; 80]); ([3; 4; 5], [60; 90])]%Z.

Definition model : list string := [].

(** The [k]-th reading of the clock is [k * k] seconds. *)
Definition clk (k : nat) : Q := inject_Z (Z.of_nat (k * k)).

Definition with_epochs (e : Z) (rf : option pyfloat) : CommandLine :=
  mkCommandLine None None None None None None None None None None (Some e) rf.

(** [--epochs 1], [--epochs 2], and the three values of [--report_freq]
    that matter. *)
Definition one_epoch : Args := parse_args (with_epochs 1 None).
Definition two_epochs : Args := parse_args (with_epochs 2 None).
Definition freq_zero : Args := parse_args (with_epochs 1 (Some (PyFinite 0))).
Definition freq_nan : Args := parse_args (with_epochs 1 (Some PyNaN)).
Definition freq_two : Args := parse_args (with_epochs 1 (Some (PyFinite 2))).

(** The same framework on an empty dataset. *)
Definition no_data : Framework :=
  {| Tensor := list Z;
     GraphInfo := string;
     Model := list string;
     size0 := fun t => Z.of_nat (List.length t);
     read_graph_info := fun file => file;
     RandomlyWiredNN := fun _ _ _ _ graphs => graphs;
     forward := fun _ x => x;
     CrossEntropyLoss := fun logits _ => inject_Z (nth 0 logits 0%Z) / 10;
     accuracy := fun _ targets =>
       (inject_Z (nth 0 targets 0%Z), inject_Z (nth 1 targets 0%Z));
     count_parameters_in_MB := fun _ => 5;
     model_param_flops_in_GB := fun _ => 1;
     preprocess_imagenet := fun _ => [] |}.

End Stub.

Section Runs.

Context {F : Framework}.
Variable args : Args.

(** [step % args.report_freq == 0], where the modulo is defined. *)
Definition due (step : Z) : bool :=
  match py_mod step (report_freq args) with
  | Some r => py_eq_zero r
  | None => false
  end.

Definition stats_of (model : Model) (clk : nat -> Q) (r : nat) (b : Batch)
    : BatchStats :=
  let logits := forward model (fst b) in
  mkStats (CrossEntropyLoss logits (snd b))
          (fst (accuracy logits (snd b)))
          (snd (accuracy logits (snd b)))
          (1 * (clk (S r) - clk r) / inject_Z (size0 (fst b)))
          (size0 (fst b)).

Definition measure_events (model : Model) (g : bool) (clk : nat -> Q)
    (r : nat) (b : Batch) : list Event :=
  [EvTensor OpCuda g (size0 (fst b));
   EvTensor OpCuda g (size0 (snd b));
   EvTime (clk r);
   EvTensor OpForward false (size0 (fst b));
   EvTime (clk (S r));
   EvTensor OpLoss g (size0 (forward model (fst b)));
   EvTensor OpAccuracy g (size0 (forward model (fst b)))].

Definition feed_all (ms : Meters) (s : BatchStats) : Meters :=
  mkMeters (feed (objs ms) (st_loss s) (st_n s))
           (feed (top1 ms) (st_prec1 s) (st_n s))
           (feed (top5 ms) (st_prec5 s) (st_n s))
           (feed (speed ms) (st_speed s) (st_n s)).

Definition report_events (step : Z) (ms : Meters) : list Event :=
  if due step then [progress_line step ms] else [].

(** The statistics of the batches of a pass that starts at reading [r]:
    each batch takes two readings. *)
Fixpoint pass_stats (model : Model) (clk : nat -> Q) (r : nat)
    (q : list Batch) : list BatchStats :=
  match q with
  | [] => []
  | b :: rest => stats_of model clk r b :: pass_stats model clk (2 + r) rest
  end.

(** The meters after the batches [ss], from [ms] on. *)
Definition meters_after (ms : Meters) (ss : list BatchStats) : Meters :=
  fold_left feed_all ss ms.

Fixpoint loop_events (model : Model) (g : bool) (clk : nat -> Q) (r : nat)
    (step : Z) (q : list Batch) (ms : Meters) : list Event :=
  match q with
  | [] => []
  | b :: rest =>
      let ms' := feed_all ms (stats_of model clk r b) in
      measure_events model g clk r b ++ report_events step ms'
        ++ loop_events model g clk (2 + r) (step + 1) rest ms'
  end.

Definition sizes_positive (q : list Batch) : Prop :=
  Forall (fun b => (0 < size0 (fst b))%Z) q.

Definition counts_nonneg (ms : Meters) : Prop :=
  (0 <= cnt (objs ms))%Z /\ (0 <= cnt (top1 ms))%Z
  /\ (0 <= cnt (top5 ms))%Z /\ (0 <= cnt (speed ms))%Z.

(** The meters of a whole pass that starts at reading [r]. *)
Definition pass_meters (model : Model) (clk : nat -> Q) (r : nat)
    (q : list Batch) : Meters :=
  meters_after new_meters (pass_stats model clk r q).

Definition infer_events (model : Model) (g : bool) (clk : nat -> Q) (r : nat)
    (q : list Batch) : list Event :=
  EvCall "model.eval" [] :: loop_events model g clk r 0 q new_meters.

Definition epoch_lines (ms : Meters) (epoch : Z) : list Event :=
  [EvLog "valid_acc %f" [VFloat (avg (top1 ms))];
   EvLog "valid_speed_per_image %f" [VFloat (avg (speed ms))];
   EvAddScalar "val_loss" (avg (objs ms)) epoch].

(** [count] epochs from [epoch] on, the first pass starting at reading [r]. *)
Fixpoint epochs_events (model : Model) (g : bool) (clk : nat -> Q) (r : nat)
    (count : nat) (epoch : Z) (q : list Batch) : list Event :=
  match count with
  | O => []
  | S count' =>
      infer_events model g clk r q
        ++ epoch_lines (pass_meters model clk r q) epoch
        ++ epochs_events model g clk (2 * List.length q + r) count' (epoch + 1) q
  end.

(** The reading at which the pass of epoch [i] starts. *)
Definition pass_start (r : nat) (q : list Batch) (i : nat) : nat :=
  (i * (2 * List.length q) + r)%nat.

Definition setup_events : list Event :=
  [EvCall "np.random.seed" [VInt (seed args)];
   EvCall "torch.cuda.set_device" [VInt (gpu args)];
   EvCall "cudnn.benchmark" [VBool true];
   EvCall "torch.manual_seed" [VInt (seed args)];
   EvCall "cudnn.enabled" [VBool true];
   EvCall "torch.cuda.manual_seed" [VInt (seed args)];
   EvLog "gpu device = %d" [VInt (gpu args)];
   EvLog "small regime or regular regime = %s" [VBool (regime args)];
   EvLog "args = %s" [VArgs args]].

(** The files of lines 62-72, in the order they are read. *)
Definition graph_files : list string :=
  if regime args then
    [graph_txt args ++ "3.txt"; graph_txt args ++ "4.txt";
     graph_txt args ++ "5.txt"]%string
  else
    [graph_txt args ++ "2.txt"; graph_txt args ++ "3.txt";
     graph_txt args ++ "4.txt"; graph_txt args ++ "5.txt"]%string.

Definition built_model : Model :=
  RandomlyWiredNN (base_channels args) NUM_CLASSES (output_channels args)
                  (regime args) (map read_graph_info graph_files).

Definition build_events (model : Model) : list Event :=
  [EvCall "SummaryWriter" [VStr (save args)];
   EvCall "nn.CrossEntropyLoss" [];
   EvCall "criterion.cuda" [];
   EvCall "RandomlyWiredNN" [VInt (base_channels args); VInt NUM_CLASSES;
                             VInt (output_channels args); VBool (regime args)];
   EvCall "model.cuda" [];
   EvLog "param size = %fMB" [VFloat (count_parameters_in_MB model)];
   EvLog "FLOPs = %fGB" [VFloat (model_param_flops_in_GB model)];
   EvCall "preprocess_imagenet" [VArgs args]].

(** Everything [main] does before the epoch loop. *)
Definition prelude_events : list Event :=
  setup_events ++ map EvReadGraph graph_files ++ build_events built_model.

Definition evaluate_events (model : Model) (g : bool) (clk : nat -> Q)
    (r : nat) (q : list Batch) : list Event :=
  epochs_events model g clk r (Z.to_nat (epochs args)) 0 q
    ++ [EvCall "writer.close" []].

Definition main_events (g : bool) (clk : nat -> Q) (r : nat) : list Event :=
  prelude_events
    ++ evaluate_events built_model g clk r (preprocess_imagenet args).

(** Inside [infer] and the epoch loop: the forward pass never sees the
    gradient mode on, every other tensor operation sees the mode [g] the
    loop was entered with, and no graph file is read. *)
Definition event_ok (g : bool) (e : Event) : Prop :=
  match e with
  | EvTensor OpForward grad _ => grad = false
  | EvTensor _ grad _ => grad = g
  | EvReadGraph _ => False
  | _ => True
  end.

(** The only exceptions of the loop are divisions by zero, and the one of
    line 119 needs a zero [report_freq]. *)
Definition exn_ok (e : Exn) : Prop :=
  match e with
  | SystemExit _ => False
  | ZeroDivisionError DivReportFreq => py_eq_zero (report_freq args) = true
  | ZeroDivisionError _ => True
  end.

Definition tame {A : Type} (m : M A) : Prop :=
  forall w : World,
    exists (k : nat) (d : list Event),
      snd (m w) = advance w k d
      /\ Forall (event_ok (grad_enabled w)) d
      /\ (forall e : Exn, fst (m w) = Raise e -> exn_ok e).

Ltac run_emits :=
  cbv beta iota zeta delta
    [bind emit call logging_info ret advance
     cuda_available clock reads grad_enabled trace Nat.add];
  repeat rewrite <- app_assoc; reflexivity.

(** *** Bookkeeping *)

Lemma advance_advance (w : World) (k k' : nat) (d d' : list Event) :
  advance (advance w k d) k' d' = advance w (k' + k) (d ++ d').
Proof.
  unfold advance; cbn.
  now rewrite Nat.add_assoc, <- app_assoc.
Qed.

Lemma advance_nothing (w : World) : advance w 0 [] = w.
Proof.
  destruct w; unfold advance; cbn.
  now rewrite app_nil_r.
Qed.

Lemma skipn_length_app {A : Type} (l d : list A) :
  skipn (List.length l) (l ++ d) = d.
Proof.
  induction l; cbn; auto.
Qed.

Lemma emitted_advance {A : Type} (m : M A) (w : World) (r : Outcome A)
    (k : nat) (d : list Event) :
  m w = (r, advance w k d) -> emitted m w = d.
Proof.
  intros H. unfold emitted. rewrite H. cbn. apply skipn_length_app.
Qed.

Lemma bind_ret_run {A B : Type} {m : M A} (k : A -> M B) {w w' : World} {a : A} :
  m w = (Ret a, w') -> bind m k w = k a w'.
Proof.
  intros H. unfold bind. now rewrite H.
Qed.

Lemma bind_raise_run {A B : Type} {m : M A} (k : A -> M B) {w w' : World} {e : Exn} :
  m w = (Raise e, w') -> bind m k w = (Raise e, w').
Proof.
  intros H. unfold bind. now rewrite H.
Qed.

Lemma emit_run (e : Event) (w : World) :
  emit e w = (Ret tt, advance w 0 [e]).
Proof. reflexivity. Qed.

(** *** One batch *)

Lemma measure_batch_run (model : Model) (b : Batch) (w : World) :
  measure_batch model b w =
  if (size0 (fst b) =? 0)%Z then
    (Raise (ZeroDivisionError DivPerImageSpeed),
     advance w 2 (firstn 6 (measure_events model (grad_enabled w) (clock w) (reads w) b)))
  else
    (Ret (stats_of model (clock w) (reads w) b),
     advance w 2 (measure_events model (grad_enabled w) (clock w) (reads w) b)).
Proof.
  destruct b as [inputs targets].
  unfold measure_batch, stats_of, measure_events, advance.
  cbn [fst snd].
  cbv beta iota zeta delta
    [bind tensor_op emit no_grad time_time set_grad_enabled ret raise py_div
     cuda_available clock reads grad_enabled trace firstn].
  destruct (size0 inputs =? 0)%Z eqn:En.
  - repeat rewrite <- app_assoc. reflexivity.
  - destruct (accuracy (forward model inputs) targets) as [prec1 prec5].
    cbn [fst snd]. repeat rewrite <- app_assoc. reflexivity.
Qed.

Lemma update_run (m : AvgrageMeter) (val : Q) (n : Z) (w : World) :
  (cnt m + n)%Z <> 0%Z -> update m val n w = (Ret (feed m val n), w).
Proof.
  intros H. unfold update, py_div, bind, feed.
  apply Z.eqb_neq in H. now rewrite H.
Qed.

Lemma update_world (m : AvgrageMeter) (val : Q) (n : Z) (w : World) :
  snd (update m val n w) = w.
Proof.
  unfold update, py_div, bind.
  now destruct (cnt m + n =? 0)%Z.
Qed.

Lemma update_raises (m : AvgrageMeter) (val : Q) (n : Z) (w : World) (e : Exn) :
  fst (update m val n w) = Raise e -> e = ZeroDivisionError DivMeterAvg.
Proof.
  unfold update, py_div, bind.
  destruct (cnt m + n =? 0)%Z; cbn; congruence.
Qed.

Lemma update_meters_world (ms : Meters) (s : BatchStats) (w : World) :
  snd (update_meters ms s w) = w.
Proof.
  unfold update_meters, bind.
  repeat match goal with
         | |- context [update ?m ?v ?n ?w0] =>
             let H := fresh in
             pose proof (update_world m v n w0) as H;
             destruct (update m v n w0) as [[?|?] ?]; cbn in H; subst
         end; reflexivity.
Qed.

Lemma update_meters_raises (ms : Meters) (s : BatchStats) (w : World) (e : Exn) :
  fst (update_meters ms s w) = Raise e -> e = ZeroDivisionError DivMeterAvg.
Proof.
  unfold update_meters, bind.
  repeat match goal with
         | |- context [update ?m ?v ?n ?w0] =>
             let H := fresh in
             pose proof (update_raises m v n w0) as H;
             destruct (update m v n w0) as [[?|?] ?]; cbn in H
         end; cbn; intros E; inversion E; subst; auto.
Qed.

Lemma update_meters_run (ms : Meters) (s : BatchStats) (w : World) :
  counts_nonneg ms -> (0 < st_n s)%Z ->
  update_meters ms s w = (Ret (feed_all ms s), w).
Proof.
  intros (Ho & H1 & H5 & Hs) Hn. unfold update_meters, feed_all.
  assert (Eo : (cnt (objs ms) + st_n s)%Z <> 0%Z) by lia.
  assert (E1 : (cnt (top1 ms) + st_n s)%Z <> 0%Z) by lia.
  assert (E5 : (cnt (top5 ms) + st_n s)%Z <> 0%Z) by lia.
  assert (Es : (cnt (speed ms) + st_n s)%Z <> 0%Z) by lia.
  rewrite (bind_ret_run _ (update_run _ (st_loss s) _ w Eo)).
  rewrite (bind_ret_run _ (update_run _ (st_prec1 s) _ w E1)).
  rewrite (bind_ret_run _ (update_run _ (st_prec5 s) _ w E5)).
  rewrite (bind_ret_run _ (update_run _ (st_speed s) _ w Es)).
  reflexivity.
Qed.

Lemma counts_nonneg_new : counts_nonneg new_meters.
Proof. unfold counts_nonneg; cbn; lia. Qed.

Lemma counts_nonneg_feed_all (ms : Meters) (s : BatchStats) :
  counts_nonneg ms -> (0 < st_n s)%Z -> counts_nonneg (feed_all ms s).
Proof.
  unfold counts_nonneg; cbn; lia.
Qed.

(** The modulo of line 119 is defined exactly when [report_freq] is not a
    zero. *)
Lemma py_mod_defined (step : Z) (d : pyfloat) :
  py_eq_zero d = false -> exists r, py_mod step d = Some r.
Proof.
  destruct d as [q|neg|]; cbn; intros H.
  - rewrite H. eauto.
  - destruct (step =? 0)%Z; [eauto|].
    destruct (Bool.eqb neg (step <? 0)%Z); eauto.
  - eauto.
Qed.

Lemma py_mod_zero_divisor (step : Z) (d : pyfloat) :
  py_eq_zero d = true -> py_mod step d = None.
Proof.
  destruct d as [q|neg|]; cbn; intros H; try discriminate.
  now rewrite H.
Qed.

Lemma report_progress_run (step : Z) (ms : Meters) (w : World) :
  py_eq_zero (report_freq args) = false ->
  report_progress args step ms w = (Ret tt, advance w 0 (report_events step ms)).
Proof.
  intros H. destruct (py_mod_defined step _ H) as [r Hr].
  unfold report_progress, report_events, due. rewrite Hr.
  destruct (py_eq_zero r).
  - apply emit_run.
  - unfold ret. now rewrite advance_nothing.
Qed.

Lemma report_progress_zero (step : Z) (ms : Meters) (w : World) :
  py_eq_zero (report_freq args) = true ->
  report_progress args step ms w = (Raise (ZeroDivisionError DivReportFreq), w).
Proof.
  intros H. unfold report_progress.
  now rewrite (py_mod_zero_divisor step _ H).
Qed.

Lemma infer_body_run (model : Model) (ms : Meters) (step : Z) (b : Batch)
    (w : World) :
  py_eq_zero (report_freq args) = false ->
  counts_nonneg ms -> (0 < size0 (fst b))%Z ->
  let ms' := feed_all ms (stats_of model (clock w) (reads w) b) in
  infer_body args model ms step b w =
  (Ret ms',
   advance w 2 (measure_events model (grad_enabled w) (clock w) (reads w) b
                ++ report_events step ms')).
Proof.
  intros Hrf Hms Hn ms'. unfold infer_body.
  assert (En : (size0 (fst b) =? 0)%Z = false) by (apply Z.eqb_neq; lia).
  pose proof (measure_batch_run model b w) as Hm. rewrite En in Hm.
  rewrite (bind_ret_run _ Hm).
  rewrite (bind_ret_run _ (update_meters_run ms (stats_of model (clock w) (reads w) b) _ Hms Hn)).
  rewrite (bind_ret_run _ (report_progress_run step _ _ Hrf)).
  unfold ret. now rewrite advance_advance.
Qed.

(** *** One pass over the queue *)

Lemma infer_loop_run (model : Model) (q : list Batch) :
  py_eq_zero (report_freq args) = false ->
  sizes_positive q ->
  forall (step : Z) (ms : Meters) (w : World),
    counts_nonneg ms ->
    infer_loop args model step q ms w =
    (Ret (meters_after ms (pass_stats model (clock w) (reads w) q)),
     advance w (2 * List.length q)
             (loop_events model (grad_enabled w) (clock w) (reads w) step q ms)).
Proof.
  intros Hrf Hq. induction Hq as [|b rest Hb Hrest IH]; intros step ms w Hms.
  - cbn. unfold ret. now rewrite advance_nothing.
  - cbn [infer_loop pass_stats loop_events meters_after fold_left].
    rewrite (bind_ret_run _ (infer_body_run model ms step b w Hrf Hms Hb)).
    rewrite IH by (apply counts_nonneg_feed_all; auto).
    rewrite advance_advance. cbn [advance clock reads grad_enabled].
    unfold meters_after.
    rewrite <- app_assoc. f_equal. unfold advance. f_equal.
    cbn [List.length]. lia.
Qed.

(** *** infer and main when nothing raises *)

Lemma infer_meters_run (q : list Batch) (model : Model) (w : World) :
  py_eq_zero (report_freq args) = false -> sizes_positive q ->
  infer_meters args q model w =
  (Ret (pass_meters model (clock w) (reads w) q),
   advance w (2 * List.length q)
           (infer_events model (grad_enabled w) (clock w) (reads w) q)).
Proof.
  intros Hrf Hq. unfold infer_meters, call.
  rewrite (bind_ret_run _ (emit_run _ w)).
  rewrite (infer_loop_run model q Hrf Hq) by apply counts_nonneg_new.
  rewrite advance_advance. cbn [advance clock reads grad_enabled].
  unfold pass_meters, infer_events, advance. cbn [app].
  now rewrite Nat.add_0_r.
Qed.

Lemma infer_run (q : list Batch) (model : Model) (w : World) :
  py_eq_zero (report_freq args) = false -> sizes_positive q ->
  let ms := pass_meters model (clock w) (reads w) q in
  infer args q model w =
  (Ret (avg (top1 ms), avg (objs ms), avg (speed ms)),
   advance w (2 * List.length q)
           (infer_events model (grad_enabled w) (clock w) (reads w) q)).
Proof.
  intros Hrf Hq ms. unfold infer.
  now rewrite (bind_ret_run _ (infer_meters_run q model w Hrf Hq)).
Qed.

Lemma epoch_body_run (q : list Batch) (model : Model) (epoch : Z) (w : World) :
  py_eq_zero (report_freq args) = false -> sizes_positive q ->
  epoch_body args q model epoch w =
  (Ret tt,
   advance w (2 * List.length q)
           (infer_events model (grad_enabled w) (clock w) (reads w) q
            ++ epoch_lines (pass_meters model (clock w) (reads w) q) epoch)).
Proof.
  intros Hrf Hq. unfold epoch_body.
  rewrite (bind_ret_run _ (infer_run q model w Hrf Hq)).
  unfold epoch_lines. generalize (pass_meters model (clock w) (reads w) q).
  generalize (infer_events model (grad_enabled w) (clock w) (reads w) q).
  intros d ms. run_emits.
Qed.

Lemma for_range_epochs_run (q : list Batch) (model : Model) :
  py_eq_zero (report_freq args) = false -> sizes_positive q ->
  forall (count : nat) (epoch : Z) (w : World),
    for_range count epoch (epoch_body args q model) w =
    (Ret tt,
     advance w (count * (2 * List.length q))
             (epochs_events model (grad_enabled w) (clock w) (reads w)
                            count epoch q)).
Proof.
  intros Hrf Hq. induction count as [|count IH]; intros epoch w.
  - cbn. unfold ret. now rewrite advance_nothing.
  - cbn [for_range epochs_events].
    rewrite (bind_ret_run _ (epoch_body_run q model epoch w Hrf Hq)).
    rewrite IH, advance_advance. cbn [advance clock reads grad_enabled].
    rewrite <- app_assoc. f_equal. unfold advance. f_equal. lia.
Qed.

Lemma evaluate_run (q : list Batch) (model : Model) (w : World) :
  py_eq_zero (report_freq args) = false -> sizes_positive q ->
  evaluate args q model w =
  (Ret tt,
   advance w (Z.to_nat (epochs args) * (2 * List.length q))
           (evaluate_events model (grad_enabled w) (clock w) (reads w) q)).
Proof.
  intros Hrf Hq. unfold evaluate, call.
  rewrite (bind_ret_run _ (for_range_epochs_run q model Hrf Hq _ 0%Z w)).
  rewrite emit_run, advance_advance. unfold evaluate_events, advance.
  now rewrite Nat.add_0_l.
Qed.

Lemma require_gpu_run (w : World) :
  require_gpu w =
  if cuda_available w then (Ret tt, w)
  else (Raise (SystemExit 1), advance w 0 [EvLog "no gpu device available" []]).
Proof.
  unfold require_gpu, torch_cuda_is_available, bind.
  now destruct (cuda_available w).
Qed.

Lemma seed_and_announce_run (w : World) :
  seed_and_announce args w = (Ret tt, advance w 0 setup_events).
Proof.
  unfold seed_and_announce, setup_events. run_emits.
Qed.

Lemma read_graphs_run (w : World) :
  read_graphs args w =
  (Ret (map read_graph_info graph_files), advance w 0 (map EvReadGraph graph_files)).
Proof.
  unfold read_graphs, graph_files, load_graph.
  destruct (regime args); cbn [map]; run_emits.
Qed.

Lemma build_run (graphs : list GraphInfo) (w : World) :
  let model := RandomlyWiredNN (base_channels args) NUM_CLASSES
                               (output_channels args) (regime args) graphs in
  build args graphs w =
  (Ret (model, preprocess_imagenet args), advance w 0 (build_events model)).
Proof.
  unfold build, build_events. run_emits.
Qed.

(** [main] up to the epoch loop, on a machine with a GPU. *)
Lemma prelude_run {A : Type} (k : Model * list Batch -> M A) (w : World) :
  cuda_available w = true ->
  (require_gpu ;;
   seed_and_announce args ;;
   graph_info_dicts <- read_graphs args ;;
   p <- build args graph_info_dicts ;;
   k p) w =
  k (built_model, preprocess_imagenet args) (advance w 0 prelude_events).
Proof.
  intros Hc.
  assert (Hg : require_gpu w = (Ret tt, w))
    by (rewrite require_gpu_run; now rewrite Hc).
  rewrite (bind_ret_run _ Hg).
  rewrite (bind_ret_run _ (seed_and_announce_run w)).
  rewrite (bind_ret_run _ (read_graphs_run _)).
  rewrite (bind_ret_run _ (build_run _ _)).
  repeat rewrite advance_advance. unfold prelude_events, built_model.
  reflexivity.
Qed.

Lemma main_model_run (w : World) :
  cuda_available w = true ->
  py_eq_zero (report_freq args) = false ->
  sizes_positive (preprocess_imagenet args) ->
  main_model args w =
  (Ret built_model,
   advance w (Z.to_nat (epochs args) * (2 * List.length (preprocess_imagenet args)))
           (main_events (grad_enabled w) (clock w) (reads w))).
Proof.
  intros Hc Hrf Hq. unfold main_model.
  rewrite (prelude_run _ w Hc).
  rewrite (bind_ret_run _ (evaluate_run _ _ _ Hrf Hq)).
  unfold ret. rewrite advance_advance. cbn [advance clock reads grad_enabled].
  unfold main_events, advance. now rewrite Nat.add_0_r.
Qed.

(** *** What holds on every run, raising or not *)

Lemma tame_ret {A : Type} (a : A) : tame (ret a).
Proof.
  intros w. exists 0%nat, []. cbn. rewrite advance_nothing.
  repeat split; auto. discriminate.
Qed.

Lemma tame_emit (e : Event) : (forall g, event_ok g e) -> tame (emit e).
Proof.
  intros He w. exists 0%nat, [e]. cbn.
  repeat split; auto. discriminate.
Qed.

Lemma tame_bind {A B : Type} (m : M A) (k : A -> M B) :
  tame m -> (forall a, tame (k a)) -> tame (bind m k).
Proof.
  intros Hm Hk w. destruct (Hm w) as (n & d & Hw & Hd & He).
  unfold bind. destruct (m w) as [[a|e] w1]; cbn [fst snd] in *; subst w1.
  - destruct (Hk a (advance w n d)) as (n' & d' & Hw' & Hd' & He').
    exists (n' + n)%nat, (d ++ d'). rewrite Hw', advance_advance.
    repeat split; auto. apply Forall_app; auto.
  - exists n, d. cbn. repeat split; auto.
    intros e0 E. inversion E; subst. now apply He.
Qed.

Lemma tame_measure_batch (model : Model) (b : Batch) :
  tame (measure_batch model b).
Proof.
  intros w. rewrite measure_batch_run.
  destruct (size0 (fst b) =? 0)%Z; cbn [fst snd].
  - eexists _, _. split; [reflexivity|]. split.
    + cbn. repeat constructor.
    + intros e E. inversion E. exact I.
  - eexists _, _. split; [reflexivity|]. split.
    + cbn. repeat constructor.
    + discriminate.
Qed.

Lemma tame_update_meters (ms : Meters) (s : BatchStats) :
  tame (update_meters ms s).
Proof.
  intros w. exists 0%nat, [].
  rewrite update_meters_world, advance_nothing. repeat split; auto.
  intros e E. now rewrite (update_meters_raises ms s w e E).
Qed.

Lemma tame_report_progress (step : Z) (ms : Meters) :
  tame (report_progress args step ms).
Proof.
  unfold report_progress.
  destruct (py_eq_zero (report_freq args)) eqn:Hrf.
  - rewrite (py_mod_zero_divisor step _ Hrf).
    intros w. exists 0%nat, []. cbn. rewrite advance_nothing.
    repeat split; auto. intros e E. inversion E. cbn. exact Hrf.
  - destruct (py_mod_defined step _ Hrf) as [r Hr]. rewrite Hr.
    destruct (py_eq_zero r).
    + apply tame_emit. intros g. exact I.
    + apply tame_ret.
Qed.

Lemma tame_infer_body (model : Model) (ms : Meters) (step : Z) (b : Batch) :
  tame (infer_body args model ms step b).
Proof.
  unfold infer_body.
  apply tame_bind; [apply tame_measure_batch|intros s].
  apply tame_bind; [apply tame_update_meters|intros ms'].
  apply tame_bind; [apply tame_report_progress|intros _].
  apply tame_ret.
Qed.

Lemma tame_infer_loop (model : Model) (q : list Batch) :
  forall (step : Z) (ms : Meters), tame (infer_loop args model step q ms).
Proof.
  induction q as [|b rest IH]; intros step ms; cbn [infer_loop].
  - apply tame_ret.
  - apply tame_bind; [apply tame_infer_body|intros ms'; apply IH].
Qed.

Lemma tame_infer (q : list Batch) (model : Model) : tame (infer args q model).
Proof.
  unfold infer, infer_meters, call.
  apply tame_bind; [|intros ms; apply tame_ret].
  apply tame_bind; [apply tame_emit; intros g; exact I|intros _].
  apply tame_infer_loop.
Qed.

Lemma tame_epoch_body (q : list Batch) (model : Model) (epoch : Z) :
  tame (epoch_body args q model epoch).
Proof.
  unfold epoch_body, logging_info.
  apply tame_bind; [apply tame_infer|intros [[a o] s]].
  apply tame_bind; [apply tame_emit; intros g; exact I|intros _].
  apply tame_bind; [apply tame_emit; intros g; exact I|intros _].
  apply tame_emit; intros g; exact I.
Qed.

Lemma tame_for_range (body : Z -> M unit) :
  (forall i, tame (body i)) -> forall count i, tame (for_range count i body).
Proof.
  intros Hb. induction count as [|count IH]; intros i; cbn [for_range].
  - apply tame_ret.
  - apply tame_bind; [apply Hb|intros _; apply IH].
Qed.

Lemma tame_evaluate (q : list Batch) (model : Model) :
  tame (evaluate args q model).
Proof.
  unfold evaluate, call.
  apply tame_bind; [|intros _; apply tame_emit; intros g; exact I].
  apply tame_for_range. intros i. apply tame_epoch_body.
Qed.

(** *** Reading the trace of a pass *)

Lemma collect_app {X : Type} (f : Event -> option X) (d1 d2 : list Event) :
  collect f (d1 ++ d2) = collect f d1 ++ collect f d2.
Proof.
  unfold collect. apply flat_map_app.
Qed.

Lemma flat_map_shift {X : Type} (f : nat -> list X) (n : nat) :
  flat_map f (seq 1 n) = flat_map (fun i => f (S i)) (seq 0 n).
Proof.
  rewrite <- seq_shift.
  rewrite !flat_map_concat_map, map_map. reflexivity.
Qed.

(** An observer that ignores tensor operations, clock readings and
    progress lines sees nothing in the loop of [infer]. *)
Lemma collect_loop_events {X : Type} (f : Event -> option X) :
  (forall op g n, f (EvTensor op g n) = None) ->
  (forall t, f (EvTime t) = None) ->
  (forall a, f (EvLog progress_fmt a) = None) ->
  forall model g clk q r step ms,
    collect f (loop_events model g clk r step q ms) = [].
Proof.
  intros Ht Hc Hp model g clk q.
  induction q as [|b rest IH]; intros r step ms; cbn [loop_events].
  - reflexivity.
  - rewrite !collect_app, IH.
    unfold measure_events, report_events, progress_line, collect.
    cbn [flat_map]. rewrite !Ht, !Hc.
    destruct (due step); cbn [flat_map app]; [rewrite Hp|]; reflexivity.
Qed.

Lemma forward_sizes_loop_events model g clk q :
  forall r step ms,
    forward_sizes (loop_events model g clk r step q ms)
    = map (fun b => size0 (fst b)) q.
Proof.
  induction q as [|b rest IH]; intros r step ms; cbn [loop_events map].
  - reflexivity.
  - unfold forward_sizes in *. rewrite !collect_app, IH.
    unfold report_events, progress_line.
    destruct (due step); reflexivity.
Qed.

(** The progress lines of the loop: one for each step that is due, with
    the averages as they stand after that step. *)
Lemma logs_progress_loop_events model g clk q :
  forall r step ms,
    logs progress_fmt (loop_events model g clk r step q ms)
    = map (fun i => progress_args (step + Z.of_nat i)
                      (meters_after ms (pass_stats model clk r (firstn (S i) q))))
          (filter (fun i => due (step + Z.of_nat i)) (seq 0 (List.length q))).
Proof.
  induction q as [|b rest IH]; intros r step ms.
  - reflexivity.
  - cbn [loop_events List.length]. unfold logs in *.
    rewrite !collect_app, IH.
    rewrite <- cons_seq, <- seq_shift.
    set (Fn := fun i => progress_args (step + Z.of_nat i)
                 (meters_after ms (pass_stats model clk r (firstn (S i) (b :: rest))))).
    set (P := fun i => due (step + Z.of_nat i)).
    assert (Htail :
      map Fn (filter P (map S (seq 0 (List.length rest))))
      = map (fun i => progress_args (step + 1 + Z.of_nat i)
                        (meters_after (feed_all ms (stats_of model clk r b))
                           (pass_stats model clk (2 + r) (firstn (S i) rest))))
            (filter (fun i => due (step + 1 + Z.of_nat i))
                    (seq 0 (List.length rest)))).
    { rewrite filter_map_swap, map_map.
      rewrite (filter_ext _ (fun i => due (step + 1 + Z.of_nat i))).
      - apply map_ext. intros i. unfold Fn.
        replace (step + Z.of_nat (S i))%Z with (step + 1 + Z.of_nat i)%Z by lia.
        reflexivity.
      - intros i. unfold P. f_equal. lia. }
    cbn [filter]. unfold P at 1. change (Z.of_nat 0) with 0%Z.
    rewrite Z.add_0_r. rewrite <- Htail.
    unfold report_events, progress_line.
    destruct (due step); cbn [map]; [|reflexivity].
    assert (H0 : Fn 0%nat
                 = progress_args step (feed_all ms (stats_of model clk r b))).
    { unfold Fn. change (Z.of_nat 0) with 0%Z. now rewrite Z.add_0_r. }
    rewrite H0. reflexivity.
Qed.

(** The epochs, one after the other. *)
Lemma epochs_events_flat model g clk q :
  forall count r epoch,
    epochs_events model g clk r count epoch q
    = flat_map (fun i =>
                  infer_events model g clk (pass_start r q i) q
                  ++ epoch_lines (pass_meters model clk (pass_start r q i) q)
                                 (epoch + Z.of_nat i))
               (seq 0 count).
Proof.
  induction count as [|count IH]; intros r epoch.
  - reflexivity.
  - cbn [epochs_events]. rewrite IH, <- cons_seq. cbn [flat_map].
    rewrite flat_map_shift. change (pass_start r q 0) with r.
    replace (epoch + Z.of_nat 0)%Z with epoch by lia.
    rewrite <- app_assoc. do 2 f_equal.
    apply flat_map_ext. intros i.
    assert (E : pass_start (2 * List.length q + r) q i = pass_start r q (S i))
      by (unfold pass_start; lia).
    rewrite E.
    replace (epoch + 1 + Z.of_nat i)%Z with (epoch + Z.of_nat (S i))%Z by lia.
    reflexivity.
Qed.

(** *** The shape of every run of main *)

Lemma emitted_of_snd {A : Type} (m : M A) (w : World) (k : nat) (d : list Event) :
  snd (m w) = advance w k d -> emitted m w = d.
Proof.
  intros H. unfold emitted. rewrite H. cbn. apply skipn_length_app.
Qed.

Lemma main_outcome (w : World) :
  main args w =
  (match fst (main_model args w) with
   | Ret _ => Ret tt
   | Raise e => Raise e
   end, snd (main_model args w)).
Proof.
  unfold main, bind. now destruct (main_model args w) as [[m|e] w1].
Qed.

Lemma main_model_shape (w : World) :
  cuda_available w = true ->
  exists (k : nat) (d : list Event),
    snd (main_model args w) = advance w k (prelude_events ++ d)
    /\ Forall (event_ok (grad_enabled w)) d
    /\ (forall e, fst (main_model args w) = Raise e -> exn_ok e)
    /\ (forall m, fst (main_model args w) = Ret m -> m = built_model).
Proof.
  intros Hc. unfold main_model. rewrite (prelude_run _ w Hc).
  destruct (tame_evaluate (preprocess_imagenet args) built_model
                          (advance w 0 prelude_events))
    as (k & d & Hw & Hd & He).
  unfold bind.
  destruct (evaluate args (preprocess_imagenet args) built_model
                     (advance w 0 prelude_events)) as [[u|e] w1];
    cbn [fst snd] in *; subst w1; exists (k + 0)%nat, d;
    rewrite advance_advance; repeat split; auto.
  - discriminate.
  - intros m E. unfold ret in E. now inversion E.
  - intros e0 E. inversion E; subst. now apply He.
  - discriminate.
Qed.

Lemma graph_reads_event_ok (g : bool) (d : list Event) :
  Forall (event_ok g) d -> graph_reads d = [].
Proof.
  induction 1 as [|e d He Hd IH]; [reflexivity|].
  unfold graph_reads, collect in *. cbn [flat_map]. rewrite IH.
  destruct e; cbn in *; auto. contradiction.
Qed.

Lemma graph_reads_prelude : graph_reads prelude_events = graph_files.
Proof.
  unfold prelude_events, graph_files, setup_events, build_events.
  destruct (regime args); reflexivity.
Qed.

Lemma main_graph_reads (w : World) :
  cuda_available w = true ->
  graph_reads (emitted (main args) w) = graph_files.
Proof.
  intros Hc. destruct (main_model_shape w Hc) as (k & d & Hw & Hd & _).
  assert (E : snd (main args w) = advance w k (prelude_events ++ d))
    by (rewrite main_outcome; exact Hw).
  rewrite (emitted_of_snd _ _ _ _ E).
  unfold graph_reads at 1. rewrite collect_app.
  fold graph_reads. rewrite graph_reads_prelude, (graph_reads_event_ok _ _ Hd).
  apply app_nil_r.
Qed.

(** *** The meters *)

Lemma feed_pairs_invariant (l : list (Q * Z)) :
  forall m : AvgrageMeter,
    sum (fold_left feed_pair l m) == sum m + weighted_sum l
    /\ cnt (fold_left feed_pair l m) = (cnt m + total_count l)%Z.
Proof.
  induction l as [|p l IH]; intros m; cbn [fold_left weighted_sum total_count fold_right].
  - split; [ring|lia].
  - destruct (IH (feed_pair m p)) as [Hs Hc]. split.
    + rewrite Hs. unfold feed_pair, feed. cbn [sum]. fold (weighted_sum l). ring.
    + rewrite Hc. unfold feed_pair, feed. cbn [cnt]. fold (total_count l). lia.
Qed.

Lemma feed_pairs_avg (l : list (Q * Z)) :
  l <> [] ->
  forall m : AvgrageMeter,
    avg (fold_left feed_pair l m)
    = sum (fold_left feed_pair l m) / inject_Z (cnt (fold_left feed_pair l m)).
Proof.
  induction l as [|p l IH]; intros Hl m; [congruence|].
  destruct l as [|p' l'].
  - reflexivity.
  - cbn [fold_left] in *. apply IH. discriminate.
Qed.

(** After at least one update, a meter that started fresh shows the
    weighted mean of what it was fed. *)
Lemma fresh_meter_avg (l : list (Q * Z)) :
  l <> [] -> avg (fold_left feed_pair l new_meter) == weighted_mean l.
Proof.
  intros Hl. rewrite (feed_pairs_avg l Hl).
  destruct (feed_pairs_invariant l new_meter) as [Hs Hc].
  rewrite Hs, Hc. unfold weighted_mean. cbn [sum cnt new_meter].
  rewrite Z.add_0_l. now rewrite Qplus_0_l.
Qed.

Lemma meters_after_split (ss : list BatchStats) :
  forall ms : Meters,
    objs (meters_after ms ss)
      = fold_left feed_pair (map (fun s => (st_loss s, st_n s)) ss) (objs ms)
    /\ top1 (meters_after ms ss)
      = fold_left feed_pair (map (fun s => (st_prec1 s, st_n s)) ss) (top1 ms)
    /\ top5 (meters_after ms ss)
      = fold_left feed_pair (map (fun s => (st_prec5 s, st_n s)) ss) (top5 ms)
    /\ speed (meters_after ms ss)
      = fold_left feed_pair (map (fun s => (st_speed s, st_n s)) ss) (speed ms).
Proof.
  unfold meters_after.
  induction ss as [|s ss IH]; intros ms; cbn [fold_left map].
  - auto.
  - apply (IH (feed_all ms s)).
Qed.

Lemma pass_stats_nonempty model clk r (q : list Batch) :
  q <> [] -> pass_stats model clk r q <> [].
Proof.
  destruct q; [congruence|discriminate].
Qed.

Lemma infer_body_zero (model : Model) (ms : Meters) (step : Z) (b : Batch)
    (w : World) :
  py_eq_zero (report_freq args) = true ->
  counts_nonneg ms -> (0 < size0 (fst b))%Z ->
  infer_body args model ms step b w =
  (Raise (ZeroDivisionError DivReportFreq),
   advance w 2 (measure_events model (grad_enabled w) (clock w) (reads w) b)).
Proof.
  intros Hrf Hms Hn. unfold infer_body.
  assert (En : (size0 (fst b) =? 0)%Z = false) by (apply Z.eqb_neq; lia).
  pose proof (measure_batch_run model b w) as Hm. rewrite En in Hm.
  rewrite (bind_ret_run _ Hm).
  rewrite (bind_ret_run _ (update_meters_run ms
             (stats_of model (clock w) (reads w) b) _ Hms Hn)).
  now rewrite (bind_raise_run _ (report_progress_zero step _ _ Hrf)).
Qed.

(** *** Reading the trace of main *)

Lemma collect_flat_map {X : Type} (f : Event -> option X) (g : nat -> list Event)
    (l : list nat) :
  collect f (flat_map g l) = flat_map (fun i => collect f (g i)) l.
Proof.
  induction l as [|i l IH]; cbn [flat_map]; [reflexivity|].
  now rewrite collect_app, IH.
Qed.

Lemma flat_map_singleton {X Y : Type} (h : X -> Y) (l : list X) :
  flat_map (fun i => [h i]) l = map h l.
Proof.
  induction l as [|i l IH]; cbn; congruence.
Qed.

Lemma flat_map_constant {X Y : Type} (c : list Y) (l : list X) :
  flat_map (fun _ => c) l = List.concat (repeat c (List.length l)).
Proof.
  induction l as [|i l IH]; cbn; congruence.
Qed.

Lemma main_run (w : World) :
  cuda_available w = true ->
  py_eq_zero (report_freq args) = false ->
  sizes_positive (preprocess_imagenet args) ->
  fst (main args w) = Ret tt
  /\ emitted (main args) w = main_events (grad_enabled w) (clock w) (reads w).
Proof.
  intros Hc Hrf Hq. pose proof (main_model_run w Hc Hrf Hq) as Hm.
  assert (E : main args w
              = (Ret tt,
                 advance w (Z.to_nat (epochs args)
                            * (2 * List.length (preprocess_imagenet args)))
                         (main_events (grad_enabled w) (clock w) (reads w))))
    by (rewrite main_outcome, Hm; reflexivity).
  split; [now rewrite E|exact (emitted_advance _ _ _ _ _ E)].
Qed.

(** What an observer that ignores tensor operations, clock readings and
    progress lines sees of a whole run: the prelude, then per epoch the
    call of [model.eval] and the three lines of the epoch, then the close. *)
Lemma collect_main_events {X : Type} (f : Event -> option X) (g : bool)
    (clk : nat -> Q) (r : nat) :
  (forall op gr n, f (EvTensor op gr n) = None) ->
  (forall t, f (EvTime t) = None) ->
  (forall a, f (EvLog progress_fmt a) = None) ->
  collect f (main_events g clk r)
  = collect f prelude_events
    ++ flat_map (fun i =>
                   collect f [EvCall "model.eval" []]
                   ++ collect f (epoch_lines
                                   (pass_meters built_model clk
                                      (pass_start r (preprocess_imagenet args) i)
                                      (preprocess_imagenet args))
                                   (Z.of_nat i)))
                (seq 0 (Z.to_nat (epochs args)))
    ++ collect f [EvCall "writer.close" []].
Proof.
  intros Ht Hc Hp. unfold main_events, evaluate_events.
  rewrite !collect_app, epochs_events_flat, collect_flat_map.
  do 2 f_equal. apply flat_map_ext. intros i.
  unfold infer_events.
  change (EvCall "model.eval" [] :: ?l) with ([EvCall "model.eval" []] ++ l).
  rewrite !collect_app, (collect_loop_events f Ht Hc Hp).
  reflexivity.
Qed.

Lemma forward_sizes_main_events (g : bool) (clk : nat -> Q) (r : nat) :
  forward_sizes (main_events g clk r)
  = List.concat (repeat (map (fun b => size0 (fst b)) (preprocess_imagenet args))
                   (Z.to_nat (epochs args))).
Proof.
  unfold main_events, evaluate_events, forward_sizes.
  rewrite !collect_app, epochs_events_flat, collect_flat_map.
  assert (Hp : collect forward_size prelude_events = []).
  { unfold prelude_events, graph_files. destruct (regime args); reflexivity. }
  rewrite Hp. cbn [app].
  assert (He : forall l,
             flat_map (fun i =>
               collect forward_size
                 (infer_events built_model g clk
                    (pass_start r (preprocess_imagenet args) i)
                    (preprocess_imagenet args)
                  ++ epoch_lines
                       (pass_meters built_model clk
                          (pass_start r (preprocess_imagenet args) i)
                          (preprocess_imagenet args))
                       (0 + Z.of_nat i))) l
             = flat_map (fun _ => map (fun b => size0 (fst b))
                                      (preprocess_imagenet args)) l).
  { intros l. apply flat_map_ext. intros i.
    rewrite collect_app. unfold infer_events.
    change (collect forward_size (EvCall "model.eval" [] :: ?l))
      with (forward_sizes l).
    rewrite forward_sizes_loop_events. apply app_nil_r. }
  rewrite He, flat_map_constant, length_seq. apply app_nil_r.
Qed.

Lemma prelude_quiet {X : Type} (f : Event -> option X) :
  (forall fn a, fn <> "model.eval"%string -> f (EvCall fn a) = None) ->
  (forall fmt a, fmt <> "valid_acc %f"%string ->
                 fmt <> "valid_speed_per_image %f"%string ->
                 f (EvLog fmt a) = None) ->
  (forall file, f (EvReadGraph file) = None) ->
  collect f prelude_events = [].
Proof.
  intros Hcall Hlog Hread.
  unfold prelude_events, graph_files, setup_events, build_events, collect.
  destruct (regime args); cbn [flat_map map app];
    rewrite ?Hread, ?Hcall, ?Hlog by discriminate; reflexivity.
Qed.

Lemma due_at_step_zero :
  py_eq_zero (report_freq args) = false ->
  report_freq args <> PyNaN ->
  due 0 = true.
Proof.
  unfold due, py_mod.
  destruct (report_freq args) as [x|neg|]; cbn [py_eq_zero]; intros Hz Hn.
  - rewrite Hz. cbn [py_eq_zero]. apply Qeq_bool_iff.
    assert (E : Qfloor (inject_Z 0 / x) = 0%Z).
    { rewrite (Qfloor_comp (inject_Z 0 / x) 0); [reflexivity|].
      unfold Qdiv. apply Qmult_0_l. }
    rewrite E. change (inject_Z 0) with 0. ring.
  - reflexivity.
  - congruence.
Qed.

Lemma logs_valid_acc_main (g : bool) (clk : nat -> Q) (r : nat) :
  logs "valid_acc %f" (main_events g clk r)
  = map (fun i => [VFloat (avg (top1 (pass_meters built_model clk
                      (pass_start r (preprocess_imagenet args) i)
                      (preprocess_imagenet args))))])
        (seq 0 (Z.to_nat (epochs args))).
Proof.
  unfold logs. rewrite collect_main_events by (intros; reflexivity).
  rewrite prelude_quiet.
  - change (collect (log_args "valid_acc %f") [EvCall "writer.close" []])
      with (@nil (list Val)).
    rewrite app_nil_r, <- flat_map_singleton. reflexivity.
  - reflexivity.
  - intros fmt a H1 _. unfold log_args.
    apply String.eqb_neq in H1. now rewrite H1.
  - reflexivity.
Qed.

Lemma logs_valid_speed_main (g : bool) (clk : nat -> Q) (r : nat) :
  logs "valid_speed_per_image %f" (main_events g clk r)
  = map (fun i => [VFloat (avg (speed (pass_meters built_model clk
                      (pass_start r (preprocess_imagenet args) i)
                      (preprocess_imagenet args))))])
        (seq 0 (Z.to_nat (epochs args))).
Proof.
  unfold logs. rewrite collect_main_events by (intros; reflexivity).
  rewrite prelude_quiet.
  - change (collect (log_args "valid_speed_per_image %f")
                    [EvCall "writer.close" []])
      with (@nil (list Val)).
    rewrite app_nil_r, <- flat_map_singleton. reflexivity.
  - reflexivity.
  - intros fmt a _ H2. unfold log_args.
    apply String.eqb_neq in H2. now rewrite H2.
  - reflexivity.
Qed.

Lemma scalars_main (g : bool) (clk : nat -> Q) (r : nat) :
  scalars (main_events g clk r)
  = map (fun i => ("val_loss"%string,
                   avg (objs (pass_meters built_model clk
                      (pass_start r (preprocess_imagenet args) i)
                      (preprocess_imagenet args))),
                   Z.of_nat i))
        (seq 0 (Z.to_nat (epochs args))).
Proof.
  unfold scalars. rewrite collect_main_events by (intros; reflexivity).
  rewrite prelude_quiet by reflexivity.
  change (collect add_scalar [EvCall "writer.close" []])
    with (@nil (string * Q * Z)).
  rewrite app_nil_r, <- flat_map_singleton. reflexivity.
Qed.

Lemma calls_eval_main (g : bool) (clk : nat -> Q) (r : nat) :
  calls "model.eval" (main_events g clk r)
  = map (fun _ => []) (seq 0 (Z.to_nat (epochs args))).
Proof.
  unfold calls. rewrite collect_main_events by (intros; reflexivity).
  rewrite prelude_quiet.
  - change (collect (call_args "model.eval") [EvCall "writer.close" []])
      with (@nil (list Val)).
    rewrite app_nil_r, <- flat_map_singleton. reflexivity.
  - intros fn a H. unfold call_args.
    apply String.eqb_neq in H. now rewrite H.
  - reflexivity.
  - reflexivity.
Qed.

(** *** The batches of a pass, one by one *)





(** ** The claims *)

(** C1 (amended): for every batch processed by [infer] the model forward
    pass runs with gradient tracking disabled; the loss, the accuracy and
    the transfers to the device run outside the [no_grad] block, under the
    gradient mode [infer] was entered with, and that mode is back in place
    when [infer] is left. *)
Theorem forward_runs_without_grad (q : list Batch) (model : Model) (w : World) :
  Forall (grad_as_scoped (grad_enabled w)) (emitted (infer args q model) w)
  /\ grad_enabled (snd (infer args q model w)) = grad_enabled w.
Proof.
  destruct (tame_infer q model w) as (k & d & Hw & Hd & _).
  rewrite (emitted_of_snd _ _ _ _ Hw), Hw. split; [|reflexivity].
  eapply Forall_impl; [|exact Hd].
  intros [ | | | |[] gr n| ]; cbn; auto.
Qed.


(** C4: without a GPU [main] logs one message and exits with status 1, and
    nothing else happens: no graph is read, no model is built, no batch is
    processed.  No other path of [main] ends in an exit. *)
Theorem gpu_check_is_the_only_exit (w : World) :
  (cuda_available w = false ->
   main args w = (Raise (SystemExit 1),
                  advance w 0 [EvLog "no gpu device available" []]))
  /\ (forall code, fst (main args w) = Raise (SystemExit code) ->
      cuda_available w = false /\ code = 1%Z).
Proof.
  split.
  - intros Hc. unfold main, main_model.
    assert (Hg : require_gpu w
                 = (Raise (SystemExit 1),
                    advance w 0 [EvLog "no gpu device available" []]))
      by (rewrite require_gpu_run; now rewrite Hc).
    rewrite (bind_raise_run _ (bind_raise_run _ Hg)). reflexivity.
  - intros code E. destruct (cuda_available w) eqn:Hc.
    + destruct (main_model_shape w Hc) as (_ & _ & _ & _ & He & _).
      rewrite main_outcome in E. cbn [fst] in E.
      destruct (fst (main_model args w)) as [m|e]; [discriminate|].
      inversion E; subst. destruct (He _ eq_refl).
    + unfold main, main_model in E.
      assert (Hg : require_gpu w
                   = (Raise (SystemExit 1),
                      advance w 0 [EvLog "no gpu device available" []]))
        by (rewrite require_gpu_run; now rewrite Hc).
      rewrite (bind_raise_run _ (bind_raise_run _ Hg)) in E.
      cbn in E. inversion E. auto.
Qed.

(** C5: when [infer] has gone through a non-empty queue, each of its four
    meters shows the batch-size-weighted mean of the values it was fed:
    the sum of value times batch size over the sum of the batch sizes.
    The queue is arbitrary, so the same holds after every update: take
    the batches seen so far as the queue. *)
Theorem meters_hold_weighted_means (q : list Batch) (model : Model) (w : World) :
  py_eq_zero (report_freq args) = false ->
  sizes_positive q ->
  q <> [] ->
  let fed (value : BatchStats -> Q) :=
    map (fun s => (value s, st_n s))
        (pass_stats model (clock w) (reads w) q) in
  exists ms : Meters,
    fst (infer_meters args q model w) = Ret ms
    /\ map st_n (pass_stats model (clock w) (reads w) q)
       = map (fun b => size0 (fst b)) q
    /\ avg (objs ms) == weighted_mean (fed st_loss)
    /\ avg (top1 ms) == weighted_mean (fed st_prec1)
    /\ avg (top5 ms) == weighted_mean (fed st_prec5)
    /\ avg (speed ms) == weighted_mean (fed st_speed).
Proof.
  intros Hrf Hq Hne fed.
  exists (pass_meters model (clock w) (reads w) q).
  rewrite (infer_meters_run q model w Hrf Hq). split; [reflexivity|]. split.
  { clear. generalize (reads w). induction q as [|b rest IH]; intros r.
    - reflexivity.
    - cbn [pass_stats map]. now rewrite IH. }
  unfold pass_meters.
  destruct (meters_after_split (pass_stats model (clock w) (reads w) q) new_meters)
    as (Ho & H1 & H5 & Hs).
  rewrite Ho, H1, H5, Hs. cbn [objs top1 top5 speed new_meters].
  pose proof (pass_stats_nonempty model (clock w) (reads w) q Hne) as Hss.
  repeat split; apply fresh_meter_avg; unfold fed;
    destruct (pass_stats model (clock w) (reads w) q); (congruence || discriminate).
Qed.


(** C10: with a zero [report_freq], [infer] raises [ZeroDivisionError] at
    the modulo of line 119 while it processes the first batch; with any
    other [report_freq] that modulo never raises, and [infer] goes
    through every batch and returns. *)
Theorem report_freq_zero_division (model : Model) (w : World) :
  (py_eq_zero (report_freq args) = true ->
   forall (b : Batch) (rest : list Batch),
     (0 < size0 (fst b))%Z ->
     infer args (b :: rest) model w =
     (Raise (ZeroDivisionError DivReportFreq),
      advance w 2 (EvCall "model.eval" []
                   :: measure_events model (grad_enabled w) (clock w) (reads w) b)))
  /\ (py_eq_zero (report_freq args) = false ->
      forall q : list Batch,
        fst (infer args q model w) <> Raise (ZeroDivisionError DivReportFreq)
        /\ (sizes_positive q ->
            exists r, infer args q model w
                      = (Ret r, advance w (2 * List.length q)
                                  (infer_events model (grad_enabled w) (clock w)
                                                (reads w) q)))).
Proof.
  split.
  - intros Hrf b rest Hb. unfold infer, infer_meters, call.
    cbn [infer_loop].
    assert (E : (emit (EvCall "model.eval" []) ;;
                 ms' <- infer_body args model new_meters 0 b ;;
                 infer_loop args model (0 + 1) rest ms') w
                = (Raise (ZeroDivisionError DivReportFreq),
                   advance w 2 (EvCall "model.eval" []
                     :: measure_events model (grad_enabled w) (clock w) (reads w) b))).
    { rewrite (bind_ret_run _ (emit_run _ w)).
      rewrite (bind_raise_run _ (infer_body_zero model new_meters 0 b _ Hrf
                                   counts_nonneg_new Hb)).
      rewrite advance_advance. reflexivity. }
    now rewrite (bind_raise_run _ E).
  - intros Hrf q. split.
    + intros E. destruct (tame_infer q model w) as (_ & _ & _ & _ & He).
      specialize (He _ E). cbn in He. congruence.
    + intros Hq. eexists. apply (infer_run q model w Hrf Hq).
Qed.

(** C2 (amended): for every epoch, [main] logs the top-1 average and the
    per-image latency average of that pass and writes its loss average as
    the [val_loss] scalar; these are the three numbers [infer] returns.
    The top-5 average is not among them. *)
Theorem epoch_reports_top1_loss_speed (w : World) :
  cuda_available w = true ->
  py_eq_zero (report_freq args) = false ->
  sizes_positive (preprocess_imagenet args) ->
  let q := preprocess_imagenet args in
  let pass (i : nat) :=
    pass_meters built_model (clock w) (pass_start (reads w) q i) q in
  let d := emitted (main args) w in
  let each_epoch := seq 0 (Z.to_nat (epochs args)) in
  logs "valid_acc %f" d = map (fun i => [VFloat (avg (top1 (pass i)))]) each_epoch
  /\ logs "valid_speed_per_image %f" d
     = map (fun i => [VFloat (avg (speed (pass i)))]) each_epoch
  /\ scalars d
     = map (fun i => ("val_loss"%string, avg (objs (pass i)), Z.of_nat i)) each_epoch
  /\ forall (i : nat) (w' : World),
       clock w' = clock w -> reads w' = pass_start (reads w) q i ->
       fst (infer args q built_model w')
       = Ret (avg (top1 (pass i)), avg (objs (pass i)), avg (speed (pass i))).
Proof.
  intros Hc Hrf Hq q pass d each_epoch.
  destruct (main_run w Hc Hrf Hq) as [_ Hd]. subst d. rewrite Hd.
  repeat split.
  - apply logs_valid_acc_main.
  - apply logs_valid_speed_main.
  - apply scalars_main.
  - intros i w' Hclk Hr. rewrite (infer_run q built_model w' Hrf Hq).
    cbn [fst]. unfold pass. now rewrite Hclk, Hr.
Qed.

(** C6: when nothing raises and [epochs] is not negative, [main] goes
    through its loop exactly [epochs] times: [infer] is entered [epochs]
    times, each time the batches of the same queue go through the model in
    the same order, and each epoch leaves one [valid_acc] line, one
    [valid_speed_per_image] line and one [val_loss] scalar numbered with
    the epoch.  With [epochs] equal to 0 nothing goes through the model. *)
Theorem evaluation_runs_epochs_times (w : World) :
  cuda_available w = true ->
  py_eq_zero (report_freq args) = false ->
  sizes_positive (preprocess_imagenet args) ->
  (0 <= epochs args)%Z ->
  let d := emitted (main args) w in
  fst (main args w) = Ret tt
  /\ Z.of_nat (List.length (calls "model.eval" d)) = epochs args
  /\ forward_sizes d
     = List.concat (repeat (map (fun b => size0 (fst b)) (preprocess_imagenet args))
                      (Z.to_nat (epochs args)))
  /\ Z.of_nat (List.length (logs "valid_acc %f" d)) = epochs args
  /\ Z.of_nat (List.length (logs "valid_speed_per_image %f" d)) = epochs args
  /\ map (fun s => (fst (fst s), snd s)) (scalars d)
     = map (fun i => ("val_loss"%string, Z.of_nat i))
           (seq 0 (Z.to_nat (epochs args)))
  /\ (epochs args = 0%Z -> forward_sizes d = [] /\ calls "model.eval" d = []).
Proof.
  intros Hc Hrf Hq He d.
  destruct (main_run w Hc Hrf Hq) as [Hret Hd]. subst d. rewrite Hd.
  rewrite calls_eval_main, forward_sizes_main_events, logs_valid_acc_main,
    logs_valid_speed_main, scalars_main.
  rewrite !length_map, !length_seq, map_map, Z2Nat.id by exact He.
  repeat split; auto;
    match goal with E : epochs args = 0%Z |- _ => now rewrite E end.
Qed.

(** C8 (amended): when nothing raises, [infer] emits a progress line with
    the running averages of loss, top-1, top-5 and speed exactly at the
    steps where [step % report_freq == 0] holds; for a [report_freq] that
    is neither zero nor NaN the first batch, step 0, always gets its
    line. *)
Theorem progress_lines_at_due_steps (q : list Batch) (model : Model) (w : World) :
  py_eq_zero (report_freq args) = false ->
  sizes_positive q ->
  logs progress_fmt (emitted (infer args q model) w)
  = map (fun i => progress_args (Z.of_nat i)
                    (pass_meters model (clock w) (reads w) (firstn (S i) q)))
        (filter (fun i => due (Z.of_nat i)) (seq 0 (List.length q)))
  /\ (report_freq args <> PyNaN ->
      forall (b : Batch) (rest : list Batch),
        q = b :: rest ->
        hd_error (logs progress_fmt (emitted (infer args q model) w))
        = Some (progress_args 0 (pass_meters model (clock w) (reads w) [b]))).
Proof.
  intros Hrf Hq.
  assert (E : logs progress_fmt (emitted (infer args q model) w)
              = map (fun i => progress_args (Z.of_nat i)
                       (pass_meters model (clock w) (reads w) (firstn (S i) q)))
                    (filter (fun i => due (Z.of_nat i)) (seq 0 (List.length q)))).
  { rewrite (emitted_advance _ _ _ _ _ (infer_run q model w Hrf Hq)).
    unfold infer_events.
    change (logs progress_fmt (EvCall "model.eval" [] :: ?l))
      with (logs progress_fmt l).
    apply logs_progress_loop_events. }
  split; [exact E|].
  intros Hnan b rest ->. rewrite E.
  cbn [List.length]. rewrite <- cons_seq. cbn [filter].
  change (Z.of_nat 0) with 0%Z. now rewrite (due_at_step_zero Hrf Hnan).
Qed.

(** ** Further properties of the script *)

(** *** The modulo of line 119 on a finite report_freq *)

Lemma nonzero_float (x : Q) : ~ x == 0 -> Qeq_bool x 0 = false.
Proof.
  intros H. destruct (Qeq_bool x 0) eqn:E; [|reflexivity].
  apply Qeq_bool_eq in E. contradiction.
Qed.

Lemma due_iff_multiple (step : Z) (x : Q) :
  report_freq args = PyFinite x -> ~ x == 0 ->
  due step = true <-> exists m : Z, inject_Z step == inject_Z m * x.
Proof.
  intros Hrf Hx. unfold due, py_mod. rewrite Hrf, (nonzero_float x Hx).
  cbn [py_eq_zero]. rewrite Qeq_bool_iff. split.
  - intros H. exists (Qfloor (inject_Z step / x)).
    setoid_replace (inject_Z step)
      with ((inject_Z step - x * inject_Z (Qfloor (inject_Z step / x)))
            + x * inject_Z (Qfloor (inject_Z step / x))) at 1 by ring.
    rewrite H. ring.
  - intros [m Hm].
    assert (E : Qfloor (inject_Z step / x) = m).
    { rewrite (Qfloor_comp (inject_Z step / x) (inject_Z m)).
      - apply Qfloor_Z.
      - rewrite Hm. now apply Qdiv_mult_l. }
    rewrite E, Hm. ring.
Qed.

Lemma due_integer_freq (step k : Z) :
  report_freq args = PyFinite (inject_Z k) -> k <> 0%Z ->
  due step = (step mod k =? 0)%Z.
Proof.
  intros Hrf Hk.
  assert (Hx : ~ inject_Z k == 0).
  { intros E. unfold Qeq in E. cbn [Qnum Qden inject_Z] in E. lia. }
  apply Bool.eq_iff_eq_true.
  rewrite (due_iff_multiple step (inject_Z k) Hrf Hx), Z.eqb_eq.
  rewrite (Z.mod_divide step k Hk). unfold Z.divide.
  split; intros [m Hm]; exists m.
  - rewrite <- inject_Z_mult in Hm.
    exact (proj1 (inject_Z_injective step (m * k)) Hm).
  - rewrite <- inject_Z_mult.
    exact (proj2 (inject_Z_injective step (m * k)) Hm).
Qed.

Lemma logged_steps_progress (f : nat -> Meters) (l : list nat) :
  flat_map (fun a => match a with
                     | VInt step :: _ => [step]
                     | _ => []
                     end)
           (map (fun i => progress_args (Z.of_nat i) (f i)) l)
  = map Z.of_nat l.
Proof.
  induction l as [|i l IH]; cbn [map flat_map]; [reflexivity|].
  now rewrite IH.
Qed.

(** X1: with a finite [report_freq] other than zero, line 119 never
    raises, and line 120 logs the progress line of a step exactly when the
    step is an integer multiple of [report_freq]. *)
Theorem report_at_multiples (step : Z) (ms : Meters) (w : World) (x : Q) :
  report_freq args = PyFinite x ->
  ~ x == 0 ->
  fst (report_progress args step ms w) = Ret tt
  /\ ((exists m : Z, inject_Z step == inject_Z m * x) ->
      emitted (report_progress args step ms) w = [progress_line step ms])
  /\ (~ (exists m : Z, inject_Z step == inject_Z m * x) ->
      emitted (report_progress args step ms) w = []).
Proof.
  intros Hrf Hx.
  assert (Hz : py_eq_zero (report_freq args) = false)
    by (rewrite Hrf; exact (nonzero_float x Hx)).
  pose proof (report_progress_run step ms w Hz) as Hrun.
  rewrite (emitted_advance _ _ _ _ _ Hrun), Hrun.
  pose proof (due_iff_multiple step x Hrf Hx) as Hd.
  unfold report_events. repeat split.
  - intros Hm. apply Hd in Hm. now rewrite Hm.
  - intros Hm. destruct (due step); [|reflexivity].
    exfalso. apply Hm, Hd. reflexivity.
Qed.

(** X2: with an integer [report_freq] [k] other than zero (100 by
    default), a pass over a queue leaves progress lines for exactly the
    steps [i] with [i mod k = 0], in order. *)
Theorem progress_every_k_steps (q : list Batch) (model : Model) (w : World)
    (k : Z) :
  report_freq args = PyFinite (inject_Z k) ->
  k <> 0%Z ->
  sizes_positive q ->
  logged_steps (emitted (infer args q model) w)
  = map Z.of_nat
        (filter (fun i => (Z.of_nat i mod k =? 0)%Z) (seq 0 (List.length q))).
Proof.
  intros Hrf Hk Hq.
  assert (Hz : py_eq_zero (report_freq args) = false).
  { rewrite Hrf. apply nonzero_float. intros E.
    unfold Qeq in E. cbn [Qnum Qden inject_Z] in E. lia. }
  rewrite (emitted_advance _ _ _ _ _ (infer_run q model w Hz Hq)).
  unfold logged_steps, infer_events.
  change (logs progress_fmt (EvCall "model.eval" [] :: ?l))
    with (logs progress_fmt l).
  rewrite logs_progress_loop_events.
  rewrite (filter_ext (fun i => due (0 + Z.of_nat i))
                      (fun i => (Z.of_nat i mod k =? 0)%Z)).
  - apply (logged_steps_progress
             (fun i => meters_after new_meters
                         (pass_stats model (clock w) (reads w) (firstn (S i) q)))).
  - intros i. apply (due_integer_freq _ k Hrf Hk).
Qed.

(** *** The shape of every pass, raising or not *)

Lemma infer_body_shape (model : Model) (ms : Meters) (step : Z) (b : Batch)
    (w : World) :
  exists d : list Event,
    snd (infer_body args model ms step b w) = advance w 2 d
    /\ forward_sizes d = [size0 (fst b)]
    /\ Forall loop_event d.
Proof.
  assert (Hme : forall g r,
             Forall loop_event (measure_events model g (clock w) r b))
    by (intros g r; repeat constructor).
  assert (Hm6 : forall g r,
             Forall loop_event (firstn 6 (measure_events model g (clock w) r b)))
    by (intros g r; repeat constructor).
  unfold infer_body, bind. rewrite measure_batch_run.
  destruct (size0 (fst b) =? 0)%Z.
  { eexists. split; [reflexivity|]. split; [reflexivity|apply Hm6]. }
  match goal with
  | |- context [update_meters ?m ?s ?w0] =>
      pose proof (update_meters_world m s w0) as Hu;
      destruct (update_meters m s w0) as [[ms'|e] w1]
  end; cbn [snd] in Hu; subst w1.
  2: { eexists. split; [reflexivity|]. split; [reflexivity|apply Hme]. }
  unfold report_progress.
  destruct (py_mod step (report_freq args)) as [r|].
  2: { eexists. split; [reflexivity|]. split; [reflexivity|apply Hme]. }
  destruct (py_eq_zero r).
  - rewrite emit_run. cbn [fst snd]. unfold ret. rewrite advance_advance.
    eexists. split; [reflexivity|]. split; [reflexivity|].
    apply Forall_app. split; [apply Hme|].
    repeat constructor.
  - eexists. split; [reflexivity|]. split; [reflexivity|apply Hme].
Qed.

Lemma infer_loop_shape (model : Model) (q : list Batch) :
  forall (step : Z) (ms : Meters) (w : World),
    exists (j : nat) (d : list Event),
      (j <= List.length q)%nat
      /\ snd (infer_loop args model step q ms w) = advance w (2 * j) d
      /\ forward_sizes d = firstn j (map (fun b => size0 (fst b)) q)
      /\ Forall loop_event d
      /\ (forall ms', fst (infer_loop args model step q ms w) = Ret ms' ->
          j = List.length q).
Proof.
  induction q as [|b rest IH]; intros step ms w.
  - exists 0%nat, []. cbn. rewrite advance_nothing. repeat split; auto.
  - cbn [infer_loop]. unfold bind.
    destruct (infer_body_shape model ms step b w) as (d1 & H1 & F1 & L1).
    destruct (infer_body args model ms step b w) as [[ms1|e] w1];
      cbn [snd] in H1; subst w1.
    + destruct (IH (step + 1)%Z ms1 (advance w 2 d1))
        as (j & d2 & Hj & H2 & F2 & L2 & R2).
      exists (S j), (d1 ++ d2). rewrite H2, advance_advance.
      split; [cbn [List.length]; lia|]. split.
      { unfold advance. f_equal. lia. }
      split.
      { unfold forward_sizes in *. rewrite collect_app, F1, F2. reflexivity. }
      split; [apply Forall_app; auto|].
      intros ms' E. cbn [List.length]. f_equal. eapply R2. exact E.
    + exists 1%nat, d1. cbn [List.length fst snd].
      split; [lia|]. split; [reflexivity|]. split; [exact F1|].
      split; [exact L1|]. discriminate.
Qed.

Lemma infer_unfolded (q : list Batch) (model : Model) (w : World) :
  infer args q model w =
  match infer_loop args model 0 q new_meters
                   (advance w 0 [EvCall "model.eval" []]) with
  | (Ret ms, w') => (Ret (avg (top1 ms), avg (objs ms), avg (speed ms)), w')
  | (Raise e, w') => (Raise e, w')
  end.
Proof.
  unfold infer, infer_meters, call, bind. rewrite emit_run.
  now destruct (infer_loop args model 0 q new_meters
                           (advance w 0 [EvCall "model.eval" []]))
    as [[ms|e] w'].
Qed.

Lemma infer_shape (q : list Batch) (model : Model) (w : World) :
  exists (j : nat) (d : list Event),
    (j <= List.length q)%nat
    /\ snd (infer args q model w)
       = advance w (2 * j) (EvCall "model.eval" [] :: d)
    /\ forward_sizes d = firstn j (map (fun b => size0 (fst b)) q)
    /\ Forall loop_event d
    /\ (forall r, fst (infer args q model w) = Ret r -> j = List.length q).
Proof.
  rewrite infer_unfolded.
  destruct (infer_loop_shape model q 0%Z new_meters
                             (advance w 0 [EvCall "model.eval" []]))
    as (j & d & Hj & Hs & Hf & Hl & Hr).
  exists j, d.
  destruct (infer_loop args model 0 q new_meters
                       (advance w 0 [EvCall "model.eval" []]))
    as [[ms|e] w']; cbn [fst snd] in *; subst w'; rewrite advance_advance;
    (split; [exact Hj|]); (split; [unfold advance; f_equal; lia|]);
    (split; [exact Hf|]); (split; [exact Hl|]).
  - intros r _. now apply (Hr ms).
  - discriminate.
Qed.

(** X3: in every run of [infer], raising or not, the batches that went
    through the model are the first [j] batches of the queue, in queue
    order and once each, the clock was read exactly twice for each of
    them, and [j] is the whole queue when [infer] returns. *)
Theorem batches_go_through_in_order (q : list Batch) (model : Model) (w : World) :
  exists j : nat,
    (j <= List.length q)%nat
    /\ forward_sizes (emitted (infer args q model) w)
       = firstn j (map (fun b => size0 (fst b)) q)
    /\ reads (snd (infer args q model w)) = (2 * j + reads w)%nat
    /\ (forall r, fst (infer args q model w) = Ret r -> j = List.length q).
Proof.
  destruct (infer_shape q model w) as (j & d & Hj & Hs & Hf & _ & Hr).
  exists j. rewrite (emitted_of_snd _ _ _ _ Hs), Hs.
  repeat split; auto.
Qed.

(** *** The shape of every run of the epoch loop *)

Lemma paced_ret {A : Type} (a : A) : paced (ret a).
Proof.
  intros w. exists []. cbn. rewrite advance_nothing. auto.
Qed.

Lemma paced_emit (e : Event) :
  forward_size e = None -> loop_event e -> paced (emit e).
Proof.
  intros Hf He w. exists [e]. split; [|repeat constructor; exact He].
  unfold forward_sizes, collect. cbn [flat_map]. now rewrite Hf.
Qed.

Lemma paced_bind {A B : Type} (m : M A) (k : A -> M B) :
  paced m -> (forall a, paced (k a)) -> paced (bind m k).
Proof.
  intros Hm Hk w. destruct (Hm w) as (d & Hw & Hd).
  unfold bind. destruct (m w) as [[a|e] w1]; cbn [snd] in *; subst w1.
  - destruct (Hk a (advance w (2 * List.length (forward_sizes d)) d))
      as (d' & Hw' & Hd').
    exists (d ++ d'). rewrite Hw', advance_advance.
    split; [|apply Forall_app; auto].
    unfold forward_sizes. rewrite collect_app, length_app.
    unfold advance. f_equal. lia.
  - exists d. auto.
Qed.

Lemma paced_infer (q : list Batch) (model : Model) : paced (infer args q model).
Proof.
  intros w. destruct (infer_shape q model w) as (j & d & Hj & Hs & Hf & Hl & _).
  exists (EvCall "model.eval" [] :: d). split.
  - rewrite Hs.
    change (forward_sizes (EvCall "model.eval" [] :: d)) with (forward_sizes d).
    rewrite Hf, length_firstn, length_map.
    now rewrite Nat.min_l.
  - constructor; [reflexivity|exact Hl].
Qed.

Lemma paced_epoch_body (q : list Batch) (model : Model) (epoch : Z) :
  paced (epoch_body args q model epoch).
Proof.
  unfold epoch_body, logging_info.
  apply paced_bind; [apply paced_infer|intros [[a o] s]].
  apply paced_bind; [apply paced_emit; cbn; auto|intros _].
  apply paced_bind; [apply paced_emit; cbn; auto|intros _].
  apply paced_emit; cbn; auto.
Qed.

Lemma paced_for_range (body : Z -> M unit) :
  (forall i, paced (body i)) -> forall count i, paced (for_range count i body).
Proof.
  intros Hb. induction count as [|count IH]; intros i; cbn [for_range].
  - apply paced_ret.
  - apply paced_bind; [apply Hb|intros _; apply IH].
Qed.

Lemma evaluate_shape (q : list Batch) (model : Model) (w : World) :
  exists d : list Event,
    Forall loop_event d
    /\ snd (evaluate args q model w)
       = advance w (2 * List.length (forward_sizes d))
                 (d ++ closing (returned (fst (evaluate args q model w)))).
Proof.
  unfold evaluate, call, bind.
  destruct (paced_for_range (epoch_body args q model)
              (paced_epoch_body q model) (Z.to_nat (epochs args)) 0%Z w)
    as (d & Hw & Hd).
  exists d. split; [exact Hd|].
  destruct (for_range (Z.to_nat (epochs args)) 0 (epoch_body args q model) w)
    as [[u|e] w1]; cbn [snd] in Hw; subst w1.
  - rewrite emit_run, advance_advance. reflexivity.
  - cbn [fst snd returned closing]. now rewrite app_nil_r.
Qed.

Lemma main_shape (w : World) :
  cuda_available w = true ->
  exists d : list Event,
    Forall loop_event d
    /\ snd (main args w)
       = advance w (2 * List.length (forward_sizes d))
                 (prelude_events ++ d ++ closing (returned (fst (main args w)))).
Proof.
  intros Hc. rewrite main_outcome. unfold main_model.
  rewrite (prelude_run _ w Hc). unfold bind.
  destruct (evaluate_shape (preprocess_imagenet args) built_model
                           (advance w 0 prelude_events)) as (d & Hd & Hw).
  exists d. split; [exact Hd|].
  destruct (evaluate args (preprocess_imagenet args) built_model
                     (advance w 0 prelude_events)) as [[u|e] w1];
    cbn [fst snd returned] in *; subst w1; rewrite advance_advance;
    unfold ret; cbn [fst snd returned]; rewrite Nat.add_0_r; reflexivity.
Qed.

Lemma calls_loop_events (fn : string) (d : list Event) :
  fn <> "model.eval"%string -> Forall loop_event d -> calls fn d = [].
Proof.
  intros Hfn. induction 1 as [|e d He Hd IH]; [reflexivity|].
  unfold calls, collect in *. cbn [flat_map]. rewrite IH.
  destruct e; cbn in *; auto.
  subst fn0. apply not_eq_sym, String.eqb_neq in Hfn. now rewrite Hfn.
Qed.

Lemma calls_main (fn : string) (w : World) :
  fn <> "model.eval"%string -> fn <> "writer.close"%string ->
  cuda_available w = true ->
  calls fn (emitted (main args) w) = calls fn prelude_events.
Proof.
  intros H1 H2 Hc. destruct (main_shape w Hc) as (d & Hd & Hw).
  rewrite (emitted_of_snd _ _ _ _ Hw). unfold calls at 1.
  rewrite !collect_app. fold (calls fn).
  rewrite (calls_loop_events fn d H1 Hd).
  assert (E : calls fn (closing (returned (fst (main args w)))) = []).
  { destruct (returned (fst (main args w))); [|reflexivity].
    unfold calls, collect, closing. cbn [flat_map call_args].
    apply not_eq_sym, String.eqb_neq in H2. now rewrite H2. }
  rewrite E. apply app_nil_r.
Qed.

Lemma main_without_gpu (w : World) :
  cuda_available w = false ->
  main args w = (Raise (SystemExit 1),
                 advance w 0 [EvLog "no gpu device available" []]).
Proof.
  intros Hc. unfold main, main_model.
  assert (Hg : require_gpu w
               = (Raise (SystemExit 1),
                  advance w 0 [EvLog "no gpu device available" []]))
    by (rewrite require_gpu_run; now rewrite Hc).
  now rewrite (bind_raise_run _ (bind_raise_run _ Hg)).
Qed.

(** X4: whenever [main] gets past the GPU check, and whether or not the
    epoch loop later raises, the set-up is done exactly once, before the
    loop: the three random generators are seeded once each with
    [args.seed], the device is selected once, and the scalar writer, the
    model (with 1000 classes) and the dataset pipeline are created once
    each, however many epochs follow. *)
Theorem setup_happens_once (w : World) :
  cuda_available w = true ->
  let d := emitted (main args) w in
  calls "np.random.seed" d = [[VInt (seed args)]]
  /\ calls "torch.manual_seed" d = [[VInt (seed args)]]
  /\ calls "torch.cuda.manual_seed" d = [[VInt (seed args)]]
  /\ calls "torch.cuda.set_device" d = [[VInt (gpu args)]]
  /\ calls "SummaryWriter" d = [[VStr (save args)]]
  /\ calls "RandomlyWiredNN" d
     = [[VInt (base_channels args); VInt 1000; VInt (output_channels args);
         VBool (regime args)]]
  /\ calls "preprocess_imagenet" d = [[VArgs args]]
  /\ exists rest, d = prelude_events ++ rest /\ graph_reads rest = [].
Proof.
  intros Hc d. subst d.
  rewrite !calls_main by (discriminate || exact Hc).
  assert (Hp : forall fn, calls fn prelude_events
                          = calls fn (setup_events ++ build_events built_model)).
  { intros fn. unfold prelude_events, calls. rewrite !collect_app.
    assert (E : collect (call_args fn) (map EvReadGraph graph_files) = [])
      by (unfold graph_files; destruct (regime args); reflexivity).
    now rewrite E. }
  rewrite !Hp. repeat split.
  destruct (main_shape w Hc) as (dl & Hd & Hw).
  rewrite (emitted_of_snd _ _ _ _ Hw). eexists. split; [reflexivity|].
  unfold graph_reads. rewrite collect_app.
  assert (E1 : collect graph_read dl = []).
  { clear Hw. induction Hd as [|e dl He Hd IH]; [reflexivity|].
    unfold collect in *. cbn [flat_map]. rewrite IH.
    destruct e; cbn in *; auto. contradiction. }
  rewrite E1. now destruct (returned (fst (main args w))).
Qed.

(** X5: the scalar writer is closed exactly when [main] returns.  On
    every way out by an exception, the exit of the GPU check and a
    division by zero inside the loop alike, [writer.close()] has not been
    called; after the GPU check the writer has been created all the
    same. *)
Theorem writer_closed_iff_main_returns (w : World) :
  calls "writer.close" (emitted (main args) w)
  = (if returned (fst (main args w)) then [[]] else [])
  /\ calls "SummaryWriter" (emitted (main args) w)
     = (if cuda_available w then [[VStr (save args)]] else []).
Proof.
  destruct (cuda_available w) eqn:Hc.
  - split.
    + destruct (main_shape w Hc) as (d & Hd & Hw).
      rewrite (emitted_of_snd _ _ _ _ Hw). unfold calls at 1.
      rewrite !collect_app. fold (calls "writer.close").
      rewrite (calls_loop_events "writer.close" d) by (discriminate || exact Hd).
      assert (E : calls "writer.close" prelude_events = []).
      { unfold prelude_events, graph_files. destruct (regime args); reflexivity. }
      rewrite E. now destruct (returned (fst (main args w))).
    + rewrite calls_main by (discriminate || exact Hc).
      unfold prelude_events, graph_files. destruct (regime args); reflexivity.
  - pose proof (main_without_gpu w Hc) as E.
    rewrite (emitted_advance _ _ _ _ _ E), E. split; reflexivity.
Qed.

(** *** Empty batches, empty queues, no epochs *)

Lemma infer_body_empty_batch (model : Model) (ms : Meters) (step : Z)
    (b : Batch) (w : World) :
  size0 (fst b) = 0%Z ->
  infer_body args model ms step b w =
  (Raise (ZeroDivisionError DivPerImageSpeed),
   advance w 2 (firstn 6 (measure_events model (grad_enabled w) (clock w)
                                         (reads w) b))).
Proof.
  intros Hn. unfold infer_body.
  pose proof (measure_batch_run model b w) as Hm.
  rewrite Hn in Hm. cbn [Z.eqb] in Hm.
  now rewrite (bind_raise_run _ Hm).
Qed.

Lemma infer_loop_empty_batch (model : Model) (b : Batch) (rest pre : list Batch) :
  py_eq_zero (report_freq args) = false ->
  size0 (fst b) = 0%Z ->
  sizes_positive pre ->
  forall (step : Z) (ms : Meters) (w : World),
    counts_nonneg ms ->
    infer_loop args model step (pre ++ b :: rest) ms w =
    (Raise (ZeroDivisionError DivPerImageSpeed),
     advance w (2 * S (List.length pre))
       (loop_events model (grad_enabled w) (clock w) (reads w) step pre ms
        ++ firstn 6 (measure_events model (grad_enabled w) (clock w)
                                    (2 * List.length pre + reads w) b))).
Proof.
  intros Hrf Hn Hpre.
  induction Hpre as [|p pre Hp Hpre IH]; intros step ms w Hms.
  - cbn [app infer_loop].
    now rewrite (bind_raise_run _ (infer_body_empty_batch model ms step b w Hn)).
  - cbn [app infer_loop loop_events List.length].
    rewrite (bind_ret_run _ (infer_body_run model ms step p w Hrf Hms Hp)).
    rewrite IH by (apply counts_nonneg_feed_all; auto).
    rewrite advance_advance. cbn [advance clock reads grad_enabled].
    rewrite <- !app_assoc. unfold advance.
    repeat (f_equal; try lia).
Qed.

(** X6: a batch without samples makes [infer] raise [ZeroDivisionError]
    at the division of line 112.  The batches before it are processed in
    full; the empty batch itself is moved to the device and goes through
    the model and the loss, and the run stops before its accuracy is
    computed and before any meter sees it. *)
Theorem empty_batch_raises (pre rest : list Batch) (b : Batch) (model : Model)
    (w : World) :
  py_eq_zero (report_freq args) = false ->
  sizes_positive pre ->
  size0 (fst b) = 0%Z ->
  let g := grad_enabled w in
  let r := (2 * List.length pre + reads w)%nat in
  infer args (pre ++ b :: rest) model w =
  (Raise (ZeroDivisionError DivPerImageSpeed),
   advance w (2 * S (List.length pre))
     (infer_events model g (clock w) (reads w) pre
      ++ [EvTensor OpCuda g 0;
          EvTensor OpCuda g (size0 (snd b));
          EvTime (clock w r);
          EvTensor OpForward false 0;
          EvTime (clock w (S r));
          EvTensor OpLoss g (size0 (forward model (fst b)))])).
Proof.
  intros Hrf Hpre Hn g r. unfold infer, infer_meters, call.
  assert (E : (emit (EvCall "model.eval" []) ;;
               infer_loop args model 0 (pre ++ b :: rest) new_meters) w
              = (Raise (ZeroDivisionError DivPerImageSpeed),
                 advance w (2 * S (List.length pre))
                   (infer_events model g (clock w) (reads w) pre
                    ++ firstn 6 (measure_events model g (clock w) r b)))).
  { rewrite (bind_ret_run _ (emit_run _ w)).
    rewrite (infer_loop_empty_batch model b rest pre Hrf Hn Hpre)
      by apply counts_nonneg_new.
    rewrite advance_advance. cbn [advance clock reads grad_enabled].
    unfold infer_events, advance. cbn [app].
    now rewrite Nat.add_0_r. }
  rewrite (bind_raise_run _ E). unfold measure_events. cbn [firstn].
  now rewrite Hn.
Qed.

Lemma infer_zero_run (model : Model) (b : Batch) (rest : list Batch) (w : World) :
  py_eq_zero (report_freq args) = true ->
  (0 < size0 (fst b))%Z ->
  infer args (b :: rest) model w =
  (Raise (ZeroDivisionError DivReportFreq),
   advance w 2 (EvCall "model.eval" []
                :: measure_events model (grad_enabled w) (clock w) (reads w) b)).
Proof.
  intros Hrf Hb. unfold infer, infer_meters, call. cbn [infer_loop].
  assert (E : (emit (EvCall "model.eval" []) ;;
               ms' <- infer_body args model new_meters 0 b ;;
               infer_loop args model (0 + 1) rest ms') w
              = (Raise (ZeroDivisionError DivReportFreq),
                 advance w 2 (EvCall "model.eval" []
                   :: measure_events model (grad_enabled w) (clock w) (reads w) b))).
  { rewrite (bind_ret_run _ (emit_run _ w)).
    rewrite (bind_raise_run _ (infer_body_zero model new_meters 0 b _ Hrf
                                 counts_nonneg_new Hb)).
    rewrite advance_advance. reflexivity. }
  now rewrite (bind_raise_run _ E).
Qed.

(** X7: with a zero [report_freq], at least one epoch and a first batch
    that is not empty, [main] does all of its set-up, sends the first
    batch through the model, and then raises [ZeroDivisionError] from line
    119: no [valid_acc] line is logged, no scalar is written, and the
    writer is not closed. *)
Theorem zero_report_freq_stops_main (w : World) (b : Batch) (rest : list Batch) :
  cuda_available w = true ->
  py_eq_zero (report_freq args) = true ->
  preprocess_imagenet args = b :: rest ->
  (0 < size0 (fst b))%Z ->
  (1 <= epochs args)%Z ->
  main args w =
  (Raise (ZeroDivisionError DivReportFreq),
   advance w 2
     (prelude_events
      ++ EvCall "model.eval" []
         :: measure_events built_model (grad_enabled w) (clock w) (reads w) b)).
Proof.
  intros Hc Hrf Hq Hb He. unfold main, main_model.
  assert (E : (require_gpu ;;
               seed_and_announce args ;;
               graph_info_dicts <- read_graphs args ;;
               p <- build args graph_info_dicts ;;
               (let '(model, test_queue) := p in
                evaluate args test_queue model ;; ret model)) w
              = (Raise (ZeroDivisionError DivReportFreq),
                 advance w 2
                   (prelude_events
                    ++ EvCall "model.eval" []
                       :: measure_events built_model (grad_enabled w)
                                         (clock w) (reads w) b))).
  { rewrite (prelude_run _ w Hc). rewrite Hq.
    assert (Ev : evaluate args (b :: rest) built_model
                          (advance w 0 prelude_events)
                 = (Raise (ZeroDivisionError DivReportFreq),
                    advance (advance w 0 prelude_events) 2
                      (EvCall "model.eval" []
                       :: measure_events built_model (grad_enabled w)
                                         (clock w) (reads w) b))).
    { unfold evaluate.
      destruct (Z.to_nat (epochs args)) as [|count] eqn:En; [lia|].
      cbn [for_range]. unfold epoch_body.
      exact (bind_raise_run _ (bind_raise_run _ (bind_raise_run _
               (infer_zero_run built_model b rest
                               (advance w 0 prelude_events) Hrf Hb)))). }
    rewrite (bind_raise_run _ Ev). now rewrite advance_advance. }
  exact (bind_raise_run _ E).
Qed.

(** X8: with [epochs] zero or negative the loop of line 86 is empty:
    [main] does its set-up, closes the writer and returns, without a
    forward pass and without a reading of the clock, whatever the queue
    and [report_freq] are. *)
Theorem no_epochs_no_inference (w : World) :
  cuda_available w = true ->
  (epochs args <= 0)%Z ->
  main args w =
  (Ret tt, advance w 0 (prelude_events ++ [EvCall "writer.close" []])).
Proof.
  intros Hc He. unfold main, main_model.
  assert (E : (require_gpu ;;
               seed_and_announce args ;;
               graph_info_dicts <- read_graphs args ;;
               p <- build args graph_info_dicts ;;
               (let '(model, test_queue) := p in
                evaluate args test_queue model ;; ret model)) w
              = (Ret built_model,
                 advance w 0 (prelude_events ++ [EvCall "writer.close" []]))).
  { rewrite (prelude_run _ w Hc). unfold evaluate, call.
    assert (En : Z.to_nat (epochs args) = 0%nat) by lia.
    rewrite En. cbn [for_range].
    unfold bind, ret. rewrite emit_run. now rewrite advance_advance. }
  now rewrite (bind_ret_run _ E).
Qed.

Lemma epoch_body_empty_queue (model : Model) (epoch : Z) (w : World) :
  epoch_body args [] model epoch w =
  (Ret tt,
   advance w 0 (infer_events model (grad_enabled w) (clock w) (reads w) []
                ++ epoch_lines (pass_meters model (clock w) (reads w) []) epoch)).
Proof.
  unfold epoch_body, infer, infer_meters, infer_events, epoch_lines,
    pass_meters, meters_after.
  cbn [infer_loop loop_events pass_stats fold_left app].
  run_emits.
Qed.

Lemma for_range_empty_queue (model : Model) :
  forall (count : nat) (epoch : Z) (w : World),
    for_range count epoch (epoch_body args [] model) w =
    (Ret tt,
     advance w 0 (epochs_events model (grad_enabled w) (clock w) (reads w)
                                count epoch [])).
Proof.
  induction count as [|count IH]; intros epoch w.
  - cbn. unfold ret. now rewrite advance_nothing.
  - cbn [for_range epochs_events].
    rewrite (bind_ret_run _ (epoch_body_empty_queue model epoch w)).
    rewrite IH, advance_advance. cbn [advance clock reads grad_enabled].
    now rewrite <- app_assoc.
Qed.

Lemma concat_repeat_nil {X : Type} (n : nat) :
  List.concat (repeat (@nil X) n) = [].
Proof.
  induction n as [|n IH]; cbn; auto.
Qed.

(** X9: on an empty dataset [main] returns whatever [report_freq] is,
    zero included: every epoch is a pass without a batch, so nothing goes
    through the model, the clock is never read, and each epoch still
    leaves its [valid_acc] line. *)
Theorem empty_dataset_runs_clean (w : World) :
  cuda_available w = true ->
  preprocess_imagenet args = [] ->
  fst (main args w) = Ret tt
  /\ forward_sizes (emitted (main args) w) = []
  /\ reads (snd (main args w)) = reads w
  /\ List.length (logs "valid_acc %f" (emitted (main args) w))
     = Z.to_nat (epochs args).
Proof.
  intros Hc Hq.
  assert (E : main args w
              = (Ret tt,
                 advance w 0 (main_events (grad_enabled w) (clock w) (reads w)))).
  { unfold main, main_model.
    assert (Em : (require_gpu ;;
                  seed_and_announce args ;;
                  graph_info_dicts <- read_graphs args ;;
                  p <- build args graph_info_dicts ;;
                  (let '(model, test_queue) := p in
                   evaluate args test_queue model ;; ret model)) w
                 = (Ret built_model,
                    advance w 0 (main_events (grad_enabled w) (clock w)
                                             (reads w)))).
    { rewrite (prelude_run _ w Hc). unfold main_events, evaluate_events.
      rewrite Hq. cbv beta iota. unfold evaluate, call.
      assert (Ev : (for_range (Z.to_nat (epochs args)) 0
                              (epoch_body args [] built_model) ;;
                    emit (EvCall "writer.close" []))
                     (advance w 0 prelude_events)
                   = (Ret tt,
                      advance (advance w 0 prelude_events) 0
                        (epochs_events built_model (grad_enabled w) (clock w)
                           (reads w) (Z.to_nat (epochs args)) 0 []
                         ++ [EvCall "writer.close" []]))).
      { rewrite (bind_ret_run _ (for_range_empty_queue built_model _ 0%Z _)).
        now rewrite emit_run, advance_advance. }
      rewrite (bind_ret_run _ Ev). unfold ret.
      now rewrite advance_advance. }
    now rewrite (bind_ret_run _ Em). }
  rewrite (emitted_advance _ _ _ _ _ E), E.
  rewrite forward_sizes_main_events, logs_valid_acc_main, Hq.
  cbn [map fst snd]. rewrite concat_repeat_nil, length_map, length_seq.
  repeat split.
Qed.

End Runs.

(** C9: [--regime] and [--train_flag] are converted with [bool], so every
    non-empty string typed after them, ["False"] and ["0"] included, gives
    [True]; [regime] is [False] only when the string typed is empty, and a
    run whose [--regime] got a non-empty string reads the three files of
    the small regime, never the four of the regular one. *)
Theorem bool_flags_parse_true {F : Framework} (cl : CommandLine)
    (s strftime : string) (w : World) :
  s <> ""%string ->
  cuda_available w = true ->
  regime (parse_args (supply_regime cl s)) = true
  /\ train_flag (parse_args (supply_train_flag cl s)) = true
  /\ (forall cl', regime (parse_args cl') = false <-> cl_regime cl' = Some ""%string)
  /\ graph_reads
       (emitted (main (stamp_save (parse_args (supply_regime cl s)) strftime)) w)
     = [graph_txt (parse_args cl) ++ "3.txt";
        graph_txt (parse_args cl) ++ "4.txt";
        graph_txt (parse_args cl) ++ "5.txt"]%string.
Proof.
  intros Hs Hc.
  assert (Hb : py_bool_of_str s = true).
  { unfold py_bool_of_str. apply String.eqb_neq in Hs. now rewrite Hs. }
  repeat split.
  - exact Hb.
  - exact Hb.
  - destruct cl' as [d [r|] bs bc oc tf g sd gt sv ep rf]; cbn; [|discriminate].
    unfold py_bool_of_str. intros E. apply negb_false_iff, String.eqb_eq in E.
    now subst.
  - destruct cl' as [d [r|] bs bc oc tf g sd gt sv ep rf]; cbn; [|discriminate].
    intros E. inversion E. reflexivity.
  - rewrite (main_graph_reads _ w Hc). unfold graph_files.
    cbn [regime stamp_save parse_args supply_regime cl_regime add_argument
         graph_txt cl_graph_txt].
    now rewrite Hb.
Qed.

(** ** The script on the small framework *)

Example bool_of_the_string_False : py_bool_of_str "False" = true.
Proof. reflexivity. Qed.

Example bool_of_the_empty_string : py_bool_of_str "" = false.
Proof. reflexivity. Qed.

Example step_200_is_due_every_100 :
  option_map py_eq_zero (py_mod 200 (PyFinite 100)) = Some true.
Proof. reflexivity. Qed.

Example step_150_is_not_due_every_100 :
  option_map py_eq_zero (py_mod 150 (PyFinite 100)) = Some false.
Proof. reflexivity. Qed.

Example step_3_is_due_every_one_and_a_half :
  option_map py_eq_zero (py_mod 3 (PyFinite (3 # 2))) = Some true.
Proof. reflexivity. Qed.

Example modulo_by_zero_raises : py_mod 7 (PyFinite 0) = None.
Proof. reflexivity. Qed.

Example modulo_by_infinity :
  option_map py_eq_zero (py_mod 0 (PyInf false)) = Some true
  /\ option_map py_eq_zero (py_mod 7 (PyInf false)) = Some false.
Proof. split; reflexivity. Qed.

Example modulo_by_nan : option_map py_eq_zero (py_mod 0 PyNaN) = Some false.
Proof. reflexivity. Qed.

(** One epoch over the two batches, default flags: the top-1 average is
    (50 * 2 + 60 * 3) / 5 = 56, and each image took (1 + 5) / 5 seconds. *)
Example one_epoch_on_the_stub :
  exists (top1_avg loss_avg speed_avg : Q) (w : World),
    @infer Stub.framework Stub.one_epoch Stub.queue Stub.model
           (start true Stub.clk)
    = (Ret (top1_avg, loss_avg, speed_avg), w)
    /\ top1_avg == 56 /\ speed_avg == 6 / 5 /\ reads w = 4%nat.
Proof.
  eexists _, _, _, _. split; [vm_compute; reflexivity|].
  repeat split.
Qed.

Lemma stub_queue_positive : @sizes_positive Stub.framework Stub.queue.
Proof.
  repeat constructor.
Qed.

(** C1, as the spec has it, fails: with the gradient mode torch starts
    with, the loss of each batch is computed with gradients enabled. *)
Lemma loss_runs_with_grad_enabled :
  grad_free (emitted (@infer Stub.framework Stub.one_epoch Stub.queue Stub.model)
                     (start true Stub.clk)) = false.
Proof.
  vm_compute. reflexivity.
Qed.

(** C2, as the spec has it, fails: after one epoch over two batches the
    top-1 and the latency of the pass are in the log, its top-5 is not. *)
Lemma top5_of_the_pass_not_reported :
  reported (emitted (@main Stub.framework Stub.one_epoch) (start true Stub.clk))
           (avg (top1 (@pass_meters Stub.framework Stub.model Stub.clk 0 Stub.queue)))
  = true
  /\ reported (emitted (@main Stub.framework Stub.one_epoch) (start true Stub.clk))
              (avg (speed (@pass_meters Stub.framework Stub.model Stub.clk 0 Stub.queue)))
     = true
  /\ reported (emitted (@main Stub.framework Stub.one_epoch) (start true Stub.clk))
              (avg (top5 (@pass_meters Stub.framework Stub.model Stub.clk 0 Stub.queue)))
     = false.
Proof.
  vm_compute. repeat split.
Qed.

(** C8, as the spec has it, fails: NaN is not zero, and with it no
    progress line is emitted, not even for the first batch. *)
Lemma nan_report_freq_never_reports :
  py_eq_zero (report_freq Stub.freq_nan) = false
  /\ logs progress_fmt
          (emitted (@infer Stub.framework Stub.freq_nan Stub.queue Stub.model)
                   (start true Stub.clk)) = [].
Proof.
  vm_compute. split; reflexivity.
Qed.

(** The amended C2 on two epochs: one [valid_acc] line per epoch, each
    with the top-1 average of its own pass. *)
Lemma epoch_reports_top1_loss_speed_witness :
  logs "valid_acc %f"
       (emitted (@main Stub.framework Stub.two_epochs) (start true Stub.clk))
  = [[VFloat (avg (top1 (@pass_meters Stub.framework Stub.model Stub.clk 0 Stub.queue)))];
     [VFloat (avg (top1 (@pass_meters Stub.framework Stub.model Stub.clk 4 Stub.queue)))]].
Proof.
  exact (proj1 (@epoch_reports_top1_loss_speed Stub.framework Stub.two_epochs
                  (start true Stub.clk) eq_refl eq_refl stub_queue_positive)).
Defined.


(** C4 on a machine without a GPU. *)
Lemma gpu_check_is_the_only_exit_witness :
  @main Stub.framework Stub.one_epoch (start false Stub.clk)
  = (Raise (SystemExit 1),
     advance (start false Stub.clk) 0 [EvLog "no gpu device available" []]).
Proof.
  exact (proj1 (@gpu_check_is_the_only_exit Stub.framework Stub.one_epoch
                  (start false Stub.clk)) eq_refl).
Defined.

(** C5 on the two batches: top-5 values 80 and 90 with weights 2 and 3
    average to 86. *)
Lemma meters_hold_weighted_means_witness :
  exists ms : Meters,
    fst (@infer_meters Stub.framework Stub.one_epoch Stub.queue Stub.model
                       (start true Stub.clk)) = Ret ms
    /\ avg (top5 ms) == 86.
Proof.
  destruct (@meters_hold_weighted_means Stub.framework Stub.one_epoch Stub.queue
              Stub.model (start true Stub.clk) eq_refl stub_queue_positive
              ltac:(discriminate))
    as (ms & Hret & _ & _ & _ & H5 & _).
  exists ms. split; [exact Hret|].
  rewrite H5. reflexivity.
Defined.

(** C6 on two epochs: [infer] is entered twice. *)
Lemma evaluation_runs_epochs_times_witness :
  Z.of_nat (List.length
              (calls "model.eval"
                     (emitted (@main Stub.framework Stub.two_epochs)
                              (start true Stub.clk)))) = 2%Z
  /\ forward_sizes (emitted (@main Stub.framework Stub.two_epochs)
                            (start true Stub.clk)) = [2; 3; 2; 3]%Z.
Proof.
  destruct (@evaluation_runs_epochs_times Stub.framework Stub.two_epochs
              (start true Stub.clk) eq_refl eq_refl stub_queue_positive
              ltac:(discriminate))
    as (_ & Hcalls & Hsizes & _).
  split; [exact Hcalls|exact Hsizes].
Defined.



(** The amended C8 with [--report_freq 2] on two batches: step 0 is due,
    step 1 is not. *)
Lemma progress_lines_at_due_steps_witness :
  List.length
    (logs progress_fmt
          (emitted (@infer Stub.framework Stub.freq_two Stub.queue Stub.model)
                   (start true Stub.clk))) = 1%nat.
Proof.
  rewrite (proj1 (@progress_lines_at_due_steps Stub.framework Stub.freq_two
                    Stub.queue Stub.model (start true Stub.clk)
                    eq_refl stub_queue_positive)).
  reflexivity.
Defined.

(** C9 with [--regime False]. *)
Lemma bool_flags_parse_true_witness :
  regime (parse_args (supply_regime no_flags "False")) = true.
Proof.
  exact (proj1 (@bool_flags_parse_true Stub.framework no_flags "False"
                  "20191008-005642" (start true Stub.clk)
                  ltac:(discriminate) eq_refl)).
Defined.

(** C10 with [--report_freq 0]. *)
Lemma report_freq_zero_division_witness :
  fst (@infer Stub.framework Stub.freq_zero Stub.queue Stub.model
              (start true Stub.clk))
  = Raise (ZeroDivisionError DivReportFreq).
Proof.
  exact (f_equal fst
           (proj1 (@report_freq_zero_division Stub.framework Stub.freq_zero
                     Stub.model (start true Stub.clk))
                  eq_refl ([1; 2], [50; 80])%Z [([3; 4; 5], [60; 90])%Z]
                  eq_refl)).
Defined.

(** ** The report frequency and the rest of a pass *)

Lemma without_progress_loop_events {F : Framework} (args args' : Args)
    (model : Model) (g : bool) (clk : nat -> Q) (q : list Batch) :
  forall (r : nat) (step : Z) (ms : Meters),
    without_progress (loop_events args model g clk r step q ms)
    = without_progress (loop_events args' model g clk r step q ms).
Proof.
  induction q as [|b rest IH]; intros r step ms; cbn [loop_events].
  - reflexivity.
  - unfold without_progress in *. rewrite !filter_app, IH.
    do 2 f_equal. unfold report_events.
    destruct (due args step), (due args' step); reflexivity.
Qed.

(** X10: [report_freq] decides which progress lines a pass logs and
    nothing else: for any two values other than zero, [infer] returns the
    same averages, reads the clock as often, and leaves the same trace
    once the progress lines are taken out. *)
Theorem report_freq_only_affects_progress_lines {F : Framework}
    (args args' : Args) (q : list Batch) (model : Model) (w : World) :
  py_eq_zero (report_freq args) = false ->
  py_eq_zero (report_freq args') = false ->
  sizes_positive q ->
  fst (infer args q model w) = fst (infer args' q model w)
  /\ reads (snd (infer args q model w)) = reads (snd (infer args' q model w))
  /\ without_progress (emitted (infer args q model) w)
     = without_progress (emitted (infer args' q model) w).
Proof.
  intros Hrf Hrf' Hq.
  pose proof (infer_run args q model w Hrf Hq) as E.
  pose proof (infer_run args' q model w Hrf' Hq) as E'.
  cbv zeta in E, E'.
  rewrite (emitted_advance _ _ _ _ _ E), (emitted_advance _ _ _ _ _ E'), E, E'.
  repeat split. unfold infer_events.
  change (without_progress (EvCall "model.eval" [] :: ?l))
    with (EvCall "model.eval" [] :: without_progress l).
  f_equal. apply without_progress_loop_events.
Qed.

(** ** The further properties on the small framework *)

(** X1 with the default [report_freq] of 100: step 200 is a multiple. *)
Lemma report_at_multiples_witness :
  emitted (report_progress Stub.one_epoch 200 new_meters) (start true Stub.clk)
  = [progress_line 200 new_meters].
Proof.
  apply (proj1 (proj2 (@report_at_multiples Stub.one_epoch 200%Z new_meters
                         (start true Stub.clk) 100 eq_refl
                         ltac:(intros H; vm_compute in H; discriminate H)))).
  exists 2%Z. reflexivity.
Defined.

(** X2 with [--report_freq 2] on two batches: only step 0. *)
Lemma progress_every_k_steps_witness :
  logged_steps (emitted (@infer Stub.framework Stub.freq_two Stub.queue Stub.model)
                        (start true Stub.clk)) = [0%Z].
Proof.
  exact (@progress_every_k_steps Stub.framework Stub.freq_two Stub.queue
           Stub.model (start true Stub.clk) 2%Z eq_refl
           ltac:(discriminate) stub_queue_positive).
Defined.

(** X4 on the default command line. *)
Lemma setup_happens_once_witness :
  calls "RandomlyWiredNN"
        (emitted (@main Stub.framework Stub.two_epochs) (start true Stub.clk))
  = [[VInt 78; VInt 1000; VInt 1280; VBool true]]
  /\ calls "np.random.seed"
           (emitted (@main Stub.framework Stub.two_epochs) (start true Stub.clk))
     = [[VInt 5]].
Proof.
  destruct (@setup_happens_once Stub.framework Stub.two_epochs
              (start true Stub.clk) eq_refl)
    as (Hseed & _ & _ & _ & _ & Hmodel & _).
  split; [exact Hmodel|exact Hseed].
Defined.

(** X6: a batch of two images, then an empty one. *)
Lemma empty_batch_raises_witness :
  fst (@infer Stub.framework Stub.one_epoch
              ([([1; 2], [50; 80])] ++ ([], [60; 90]) :: [])%Z Stub.model
              (start true Stub.clk))
  = Raise (ZeroDivisionError DivPerImageSpeed).
Proof.
  exact (f_equal fst
           (@empty_batch_raises Stub.framework Stub.one_epoch
              [([1; 2], [50; 80])]%Z [] ([], [60; 90])%Z Stub.model
              (start true Stub.clk) eq_refl
              ltac:(repeat constructor) eq_refl)).
Defined.

(** X7 with [--report_freq 0]. *)
Lemma zero_report_freq_stops_main_witness :
  fst (@main Stub.framework Stub.freq_zero (start true Stub.clk))
  = Raise (ZeroDivisionError DivReportFreq).
Proof.
  exact (f_equal fst
           (@zero_report_freq_stops_main Stub.framework Stub.freq_zero
              (start true Stub.clk) ([1; 2], [50; 80])%Z
              [([3; 4; 5], [60; 90])%Z] eq_refl eq_refl eq_refl eq_refl
              ltac:(discriminate))).
Defined.

(** X8 with [--epochs -3]. *)
Lemma no_epochs_no_inference_witness :
  fst (@main Stub.framework (parse_args (Stub.with_epochs (-3) None))
             (start true Stub.clk))
  = Ret tt.
Proof.
  exact (f_equal fst
           (@no_epochs_no_inference Stub.framework
              (parse_args (Stub.with_epochs (-3) None))
              (start true Stub.clk) eq_refl ltac:(discriminate))).
Defined.

(** X9 with [--report_freq 0] on the empty dataset: two epochs, two lines. *)
Lemma empty_dataset_runs_clean_witness :
  fst (@main Stub.no_data (parse_args (Stub.with_epochs 2 (Some (PyFinite 0))))
             (start true Stub.clk))
  = Ret tt
  /\ List.length
       (logs "valid_acc %f"
             (emitted (@main Stub.no_data
                             (parse_args (Stub.with_epochs 2 (Some (PyFinite 0)))))
                      (start true Stub.clk)))
     = 2%nat.
Proof.
  destruct (@empty_dataset_runs_clean Stub.no_data
              (parse_args (Stub.with_epochs 2 (Some (PyFinite 0))))
              (start true Stub.clk) eq_refl eq_refl)
    as (Hret & _ & _ & Hlines).
  split; [exact Hret|exact Hlines].
Defined.

(** X10 with the default [report_freq] against [--report_freq 2]. *)
Lemma report_freq_only_affects_progress_lines_witness :
  fst (@infer Stub.framework Stub.one_epoch Stub.queue Stub.model
              (start true Stub.clk))
  = fst (@infer Stub.framework Stub.freq_two Stub.queue Stub.model
                (start true Stub.clk)).
Proof.
  exact (proj1 (@report_freq_only_affects_progress_lines Stub.framework
                  Stub.one_epoch Stub.freq_two Stub.queue Stub.model
                  (start true Stub.clk) eq_refl eq_refl stub_queue_positive)).
Defined.
